(** * SP-0804N backend: the resilient market-data access layer

    A shallow embedding of [services/stock_service.py] and
    [services/cache_cleanup.py]: the sliding-window [RateLimiter], the
    four-tier TTL cache with its read-through helper
    [_get_cached_or_execute], the public query operations with their mock
    fallbacks, the batch resolver and the two cache sweepers.

    Conventions.
    - Python floats that carry seconds ([time.time()], TTLs, sleep
      durations) and payload numbers are rationals ([Q]).
    - Everything outside the Python heap (wall clock, scheduler, network,
      the Mersenne Twister of module [random]) is reached through explicit
      state passing over an abstract machine state.
    - A Python call that may raise returns a [result]. *)

From Stdlib Require Import ZArith QArith Lqa Lia Sorted.
From stdpp Require Import base option list gmap strings pretty fin_maps.

(* ===================================================================== *)
(** * Python-level basics                                                 *)
(* ===================================================================== *)

(** Exceptions are identified by their class name and message. *)
Inductive exn : Type :=
| IndexError (msg : string)
| KeyError (msg : string)
| TypeError (msg : string)
| ValueError (msg : string)
| UpstreamError (msg : string).

Inductive result (A : Type) : Type :=
| Ok (a : A)
| Raise (e : exn).
Arguments Ok {A} a.
Arguments Raise {A} e.

(** Comparisons of Python floats, on rationals. *)
Definition Qgtb (a b : Q) : bool := negb (Qle_bool a b).
Definition Qltb (a b : Q) : bool := negb (Qle_bool b a).

(** [max(0, x)] as Python evaluates it: the first maximal argument. *)
Definition py_max0 (x : Q) : Q := if Qgtb x 0 then x else 0%Q.

(* ===================================================================== *)
(** * RateLimiter                                                         *)
(* ===================================================================== *)

Module RateLimiter.

(** What [wait_if_needed] needs from the machine: [time.time()],
    [time.sleep(d)] and the draw [random.uniform(0.1, 1.0)]. *)
Class Clock (Env : Type) : Type := {
  time_time : Env -> Q;
  time_sleep : Q -> Env -> Env;
  jitter : Env -> Q * Env
}.

(** The object state: [self.timestamps] (a deque, oldest first),
    [self.max_calls] and [self.period]. *)
Record t : Type := mk {
  timestamps : list Q;
  max_calls : Z;
  period : Q
}.

(** [RateLimiter.__init__]. *)
Definition init (max_calls : Z) (period : Q) : t :=
  {| timestamps := []; max_calls := max_calls; period := period |}.

(** What happens to [self.lock] and to the calling thread, in order. *)
Inductive event : Type :=
| LockAcquire
| LockRelease
| Sleep (d : Q).

(** [while self.timestamps and now - self.timestamps[0] > self.period:
       self.timestamps.popleft()] *)
Fixpoint prune (now period : Q) (ts : list Q) : list Q :=
  match ts with
  | [] => []
  | t0 :: rest =>
      if Qgtb (now - t0) period then prune now period rest else ts
  end.

(** The outcome of one call: the limiter, the machine, what happened to
    the lock, and whether the call returned or raised. *)
Record outcome (Env : Type) : Type := mk_outcome {
  limiter : t;
  env : Env;
  trace : list event;
  returned : result unit
}.
Arguments mk_outcome {Env} _ _ _ _.
Arguments limiter {Env} _.
Arguments env {Env} _.
Arguments trace {Env} _.
Arguments returned {Env} _.

(** [RateLimiter.wait_if_needed].  The [with self.lock:] block spans the
    pruning, the conditional sleep and the append; [self.timestamps[0]]
    raises [IndexError] on an empty deque. *)
Definition wait_if_needed {Env} `{Clock Env} (self : t) (e : Env)
  : outcome Env :=
  let now := time_time e in
  let ts := prune now (period self) (timestamps self) in
  if (max_calls self <=? Z.of_nat (length ts))%Z then
    match ts with
    | [] =>
        mk_outcome
          {| timestamps := ts; max_calls := max_calls self;
             period := period self |}
          e [LockAcquire; LockRelease]
          (Raise (IndexError "deque index out of range"))
    | t0 :: _ =>
        let '(j, e1) := jitter e in
        let sleep_time := (t0 + period self - now + j)%Q in
        let e2 := time_sleep (py_max0 sleep_time) e1 in
        let now' := time_time e2 in
        mk_outcome
          {| timestamps := ts ++ [now']; max_calls := max_calls self;
             period := period self |}
          e2 [LockAcquire; Sleep (py_max0 sleep_time); LockRelease]
          (Ok tt)
    end
  else
    mk_outcome
      {| timestamps := ts ++ [now]; max_calls := max_calls self;
         period := period self |}
      e [LockAcquire; LockRelease] (Ok tt).





(** The states one instance goes through under a sequence of calls:
    between two calls the machine moves on its own, the clock never
    running backwards. *)
Inductive reachable {Env} `{Clock Env} (N : Z) (P : Q)
  : t -> Env -> Prop :=
| reach_init e : reachable N P (init N P) e
| reach_idle self e e' :
    reachable N P self e ->
    (time_time e <= time_time e')%Q ->
    reachable N P self e'
| reach_call self e :
    reachable N P self e ->
    returned (wait_if_needed self e) = Ok tt ->
    reachable N P (limiter (wait_if_needed self e))
                  (env (wait_if_needed self e)).


(** A machine for running the limiter on paper: the state is the clock
    itself, sleeping [d] takes exactly [d], the jitter is always 1/2. *)
#[export] Instance ideal_clock : Clock Q := {
  time_time := fun e => e;
  time_sleep := fun d e => (e + d)%Q;
  jitter := fun e => ((1 # 2)%Q, e)
}.


(** One call per 10 seconds, one call recorded at time 0. *)
Definition one_call_recorded : t :=
  {| timestamps := [0%Q]; max_calls := 1; period := 10 |}.

End RateLimiter.

(* ===================================================================== *)
(** * Python values, strings and slices                                   *)
(* ===================================================================== *)

(** The JSON-like values the service stores and returns; a [dict] keeps
    its items in insertion order. *)
#[warnings="-register-all"]
Inductive value : Type :=
| VNone
| VInt (z : Z)
| VNum (q : Q)
| VStr (s : string)
| VList (l : list value)
| VDict (d : list (string * value)).

(** [d[key]] on the items of a dict. *)
Fixpoint dict_get (key : string) (d : list (string * value)) : option value :=
  match d with
  | [] => None
  | (k, v) :: rest => if String.eqb k key then Some v else dict_get key rest
  end.

(** [v["dataSource"]], when [v] is a dict that has the key. *)
Definition data_source (v : value) : option value :=
  match v with
  | VDict d => dict_get "dataSource" d
  | _ => None
  end.

(** Python truthiness, as [if stock:] and [if not results:] use it. *)
Definition truthy (v : value) : bool :=
  match v with
  | VNone => false
  | VInt z => negb (z =? 0)%Z
  | VNum q => negb (Qeq_bool q 0)
  | VStr s => negb (String.eqb s "")
  | VList l => negb (Nat.eqb (length l) 0)
  | VDict d => negb (Nat.eqb (length d) 0)
  end.

(** [str.upper] and [str.lower] on ASCII letters. *)
Definition ascii_upper (c : Ascii.ascii) : Ascii.ascii :=
  let n := Ascii.nat_of_ascii c in
  if (97 <=? n)%nat && (n <=? 122)%nat then Ascii.ascii_of_nat (n - 32)
  else c.

Definition ascii_lower (c : Ascii.ascii) : Ascii.ascii :=
  let n := Ascii.nat_of_ascii c in
  if (65 <=? n)%nat && (n <=? 90)%nat then Ascii.ascii_of_nat (n + 32)
  else c.

Fixpoint str_map (f : Ascii.ascii -> Ascii.ascii) (s : string) : string :=
  match s with
  | EmptyString => EmptyString
  | String c rest => String (f c) (str_map f rest)
  end.

Definition upper (s : string) : string := str_map ascii_upper s.
Definition lower (s : string) : string := str_map ascii_lower s.

(** [needle in hay] on strings. *)
Fixpoint str_contains (needle hay : string) : bool :=
  String.prefix needle hay ||
  match hay with
  | EmptyString => false
  | String _ rest => str_contains needle rest
  end.

(** [l[:limit]]: a negative [limit] counts from the end. *)
Definition py_slice_to {A : Type} (l : list A) (limit : Z) : list A :=
  if (0 <=? limit)%Z then take (Z.to_nat limit) l
  else take (length l - Z.to_nat (- limit)) l.

(** [range(0, stop, step)]. *)
Definition py_range_step (stop step : nat) : list nat :=
  (fun k => k * step) <$> seq 0 (Nat.div (stop + (step - 1)) step).

(* ===================================================================== *)
(** * The machine and the upstream source                                 *)
(* ===================================================================== *)

(** What the service uses of the interpreter and the operating system.
    [G] is the state of module [random]'s generator, [E] the rest of the
    machine (wall clock, scheduler, network, numpy's own generator). *)
Class Runtime (G E : Type) : Type := {
  (** [random.seed(n)] replaces the generator state. *)
  random_seed : Z -> G;
  (** [random.random()], in [[0, 1)]. *)
  random_random : G -> Q * G;
  (** [random.randrange(n)]. *)
  random_randbelow : Z -> G -> Z * G;
  (** [time.time()]. *)
  time_time : E -> Q;
  (** [time.sleep(d)]. *)
  time_sleep : Q -> E -> E;
  (** [datetime.now().strftime("%Y-%m-%d %H:%M:%S")]. *)
  strftime_now : E -> string;
  (** [pd.date_range(start=now - timedelta(days), end=now, periods)]
      with every stamp formatted by [strftime(fmt)]. *)
  date_range_strftime : Z -> nat -> string -> E -> list string;
  (** [np.random.normal(0, sigma, n)], numpy's global generator. *)
  np_random_normal : Q -> nat -> E -> list Q * E;
  (** [hash(s)] of a string: fixed for the life of the process. *)
  hash : string -> Z;
  (** [round(x, ndigits)]. *)
  round : Q -> Z -> Q
}.

(** [random.uniform(a, b)] is [a + (b - a) * random()]. *)
Definition random_uniform {G E} `{Runtime G E} (a b : Q) (g : G) : Q * G :=
  let '(u, g') := random_random g in ((a + (b - a) * u)%Q, g').

(** [random.randint(a, b)] is [randrange(a, b + 1)]. *)
Definition random_randint {G E} `{Runtime G E} (a b : Z) (g : G) : Z * G :=
  let '(k, g') := random_randbelow (b - a + 1) g in ((a + k)%Z, g').

(** Everything of the process but the cache: the timestamps of the global
    [YAHOO_RATE_LIMITER], the generator of [random], the machine. *)
Record sys (G E : Type) : Type := mk_sys {
  yahoo : list Q;
  rng : G;
  os : E
}.
Arguments mk_sys {G E} _ _ _.
Arguments yahoo {G E} _.
Arguments rng {G E} _.
Arguments os {G E} _.

(** What [yfinance] delivers.  Each operation covers the part of one
    [fetch_data] closure that talks to the upstream source (with the rate
    limiting, pacing sleeps and retries done on the way) and hands back the
    values the closure puts into its result, or raises. *)
Record quote : Type := mk_quote {
  q_name : value; q_price : value; q_change : value;
  q_percentChange : value; q_marketCap : value; q_volume : value;
  q_avgVolume : value; q_pe : value; q_eps : value; q_dividend : value;
  q_high52w : value; q_low52w : value; q_open : value;
  q_previousClose : value; q_analyst : value
}.

Record series : Type := mk_series {
  s_labels : value;
  s_data : value;
  s_timestamps : value
}.

Class Upstream (G E : Type) : Type := {
  (** [get_stock_details.fetch_data], up to the dict it returns. *)
  yf_quote : string -> sys G E -> sys G E * result quote;
  (** [get_historical_data.fetch_data], given symbol, period, interval and
      date format. *)
  yf_history : string -> string -> string -> string ->
               sys G E -> sys G E * result series;
  (** [get_market_summary.fetch_data]: indices, sector performance and
      market status. *)
  yf_market : sys G E -> sys G E * result (value * value * value);
  (** [get_market_movers.fetch_data]: gainers and losers. *)
  yf_movers : Z -> sys G E -> sys G E * result (value * value);
  (** The direct symbol match of [search_stocks.fetch_data]: the name to
      list for the symbol, if the ticker and its info could be had. *)
  yf_symbol_name : string -> sys G E -> sys G E * option value
}.

(* ===================================================================== *)
(** * The cache                                                           *)
(* ===================================================================== *)

(** The keys of [self.cache]. *)
Inductive cache_type : Type := realtime | historical | search | market.

#[export] Instance cache_type_eq_dec : EqDecision cache_type.
Proof. solve_decision. Defined.

(** [{'data': ..., 'timestamp': ...}]. *)
Record entry : Type := mk_entry {
  data : value;
  timestamp : Q
}.

(** [self.cache]: one dict per tier. *)
Record cache_store : Type := mk_cache {
  realtime_cache : gmap string entry;
  historical_cache : gmap string entry;
  search_cache : gmap string entry;
  market_cache : gmap string entry
}.

Definition empty_cache : cache_store := mk_cache ∅ ∅ ∅ ∅.

(** [self.cache[cache_type]]. *)
Definition tier (c : cache_store) (t : cache_type) : gmap string entry :=
  match t with
  | realtime => realtime_cache c
  | historical => historical_cache c
  | search => search_cache c
  | market => market_cache c
  end.

Definition set_tier (c : cache_store) (t : cache_type)
    (m : gmap string entry) : cache_store :=
  match t with
  | realtime => mk_cache m (historical_cache c) (search_cache c) (market_cache c)
  | historical => mk_cache (realtime_cache c) m (search_cache c) (market_cache c)
  | search => mk_cache (realtime_cache c) (historical_cache c) m (market_cache c)
  | market => mk_cache (realtime_cache c) (historical_cache c) (search_cache c) m
  end.

(** Cache TTLs in seconds. *)
Definition REALTIME_TTL : Q := 30.
Definition HISTORICAL_TTL : Q := 3600.
Definition SEARCH_TTL : Q := 3600.
Definition MARKET_TTL : Q := 60.

(** [getattr(self, f"{cache_type.upper()}_TTL")]. *)
Definition tier_ttl (t : cache_type) : Q :=
  match t with
  | realtime => REALTIME_TTL
  | historical => HISTORICAL_TTL
  | search => SEARCH_TTL
  | market => MARKET_TTL
  end.

(** The keys of one tier whose entry is older than [bound] at [now]. *)
Definition expired_keys (now bound : Q) (m : gmap string entry) : list string :=
  fst <$> List.filter (fun kv => Qgtb (now - timestamp (snd kv)) bound)
                      (map_to_list m).

(** [for key in expired_keys: del cache[key]]. *)
Definition sweep (now bound : Q) (m : gmap string entry) : gmap string entry :=
  foldl (fun acc key => delete key acc) m (expired_keys now bound m).

(** The state of the process: the cache of the one [StockService] and the
    rest. *)
Record world (G E : Type) : Type := mk_world {
  cache : cache_store;
  machine : sys G E
}.
Arguments mk_world {G E} _ _.
Arguments cache {G E} _.
Arguments machine {G E} _.

(** Run on the whole process a step that does not touch the cache. *)
Definition on_machine {G E A} (f : sys G E -> sys G E * A)
    (w : world G E) : world G E * A :=
  let '(s', a) := f (machine w) in (mk_world (cache w) s', a).

(* ===================================================================== *)
(** * StockService                                                        *)
(* ===================================================================== *)

Module StockService.
Section Service.
Context {G E : Type} `{Runtime G E} `{Upstream G E}.

Local Abbreviation sys := (sys G E).
Local Abbreviation world := (world G E).

(** ** Rate limiting and retry decorators *)

(** The machine as [RateLimiter.wait_if_needed] sees it; the jitter is
    [random.uniform(0.1, 1.0)]. *)
#[export] Instance sys_clock : RateLimiter.Clock sys := {
  RateLimiter.time_time := fun s => time_time (os s);
  RateLimiter.time_sleep :=
    fun d s => mk_sys (yahoo s) (rng s) (time_sleep d (os s));
  RateLimiter.jitter :=
    fun s => let '(u, g') := random_uniform (1 # 10) 1 (rng s) in
             (u, mk_sys (yahoo s) g' (os s))
}.

(** [YAHOO_RATE_LIMITER = RateLimiter(max_calls=25, period=60)], with
    its current deque. *)
Definition YAHOO_RATE_LIMITER (ts : list Q) : RateLimiter.t :=
  RateLimiter.mk ts 25 60.

(** [YAHOO_RATE_LIMITER.wait_if_needed()]. *)
Definition yahoo_wait (s : sys) : sys * result unit :=
  let out := RateLimiter.wait_if_needed (YAHOO_RATE_LIMITER (yahoo s)) s in
  (mk_sys (RateLimiter.timestamps (RateLimiter.limiter out))
          (rng (RateLimiter.env out)) (os (RateLimiter.env out)),
   RateLimiter.returned out).

(** The decorator [@rate_limit]. *)
Definition rate_limit {A} (func : world -> world * result A)
    (w : world) : world * result A :=
  match on_machine yahoo_wait w with
  | (w1, Ok _) => func w1
  | (w1, Raise e) => (w1, Raise e)
  end.

(** The wait of package [backoff] before retry number [k + 1]:
    exponential ([2 ** k] seconds) with full jitter. *)
Definition backoff_sleep (k : nat) (s : sys) : sys :=
  let '(u, g') := random_uniform 0 (inject_Z (2 ^ Z.of_nat k)) (rng s) in
  mk_sys (yahoo s) g' (time_sleep u (os s)).

Fixpoint retry {A} (remaining k : nat) (func : world -> world * result A)
    (w : world) : world * result A :=
  match func w with
  | (w', Ok a) => (w', Ok a)
  | (w', Raise e) =>
      match remaining with
      | O => (w', Raise e)
      | S r =>
          retry r (S k) func
                (mk_world (cache w') (backoff_sleep k (machine w')))
      end
  end.

(** The decorator [@backoff.on_exception(backoff.expo, Exception,
    max_tries=...)]: call again after any exception, giving up (and
    raising the last one) after [max_tries] calls. *)
Definition on_exception {A} (max_tries : nat)
    (func : world -> world * result A) : world -> world * result A :=
  retry (max_tries - 1) 0 func.

(** ** The sweeper of the service *)

(** [StockService._cleanup_cache]. *)
Definition _cleanup_cache (w : world) : world :=
  let now := time_time (os (machine w)) in
  let c := cache w in
  mk_world
    (mk_cache (sweep now REALTIME_TTL (realtime_cache c))
              (sweep now HISTORICAL_TTL (historical_cache c))
              (sweep now SEARCH_TTL (search_cache c))
              (sweep now MARKET_TTL (market_cache c)))
    (machine w).

(** ** Read-through caching *)

(** [StockService._get_cached_or_execute].  [now] is read once, before
    the lookup, and is the timestamp of the entry written after a
    successful fetch; after a failed fetch any entry under the key is
    returned as it is. *)
Definition _get_cached_or_execute (cache_type : cache_type)
    (cache_key : string) (fetch_func : world -> world * result value)
    (ttl : option Q) (w : world) : world * result value :=
  let ttl := match ttl with Some x => x | None => tier_ttl cache_type end in
  let now := time_time (os (machine w)) in
  let execute :=
    match fetch_func w with
    | (w1, Ok result) =>
        (mk_world
           (set_tier (cache w1) cache_type
              (<[cache_key := mk_entry result now]>
                 (tier (cache w1) cache_type)))
           (machine w1),
         Ok result)
    | (w1, Raise e) =>
        match tier (cache w1) cache_type !! cache_key with
        | Some old => (w1, Ok (data old))
        | None => (w1, Raise e)
        end
    end in
  match tier (cache w) cache_type !! cache_key with
  | Some hit =>
      if Qltb (now - timestamp hit) ttl then (w, Ok (data hit))
      else execute
  | None => execute
  end.

(** ** Search *)

(** [self.popular_stocks]. *)
Definition stock (symbol name : string) : value :=
  VDict [("symbol", VStr symbol); ("name", VStr name)].

Definition popular_stocks : list value :=
  [ stock "AAPL" "Apple Inc.";
    stock "MSFT" "Microsoft Corporation";
    stock "GOOGL" "Alphabet Inc.";
    stock "AMZN" "Amazon.com Inc.";
    stock "META" "Meta Platforms Inc.";
    stock "TSLA" "Tesla Inc.";
    stock "NVDA" "NVIDIA Corporation";
    stock "JPM" "JPMorgan Chase & Co.";
    stock "V" "Visa Inc.";
    stock "JNJ" "Johnson & Johnson" ].

(** [query_lower in stock['symbol'].lower() or
     query_lower in stock['name'].lower()]. *)
Definition matches (query_lower : string) (st : value) : bool :=
  match st with
  | VDict d =>
      match dict_get "symbol" d, dict_get "name" d with
      | Some (VStr sy), Some (VStr na) =>
          str_contains query_lower (lower sy)
          || str_contains query_lower (lower na)
      | _, _ => false
      end
  | _ => false
  end.

(** [search_stocks.fetch_data]. *)
Definition search_fetch_data (query : string) (limit : Z)
    (w : world) : world * result value :=
  let '(w1, results) :=
    if (String.length query <=? 5)%nat then
      match on_machine (yf_symbol_name query) w with
      | (w1, Some name) =>
          (w1, [VDict [("symbol", VStr (upper query)); ("name", name)]])
      | (w1, None) => (w1, [])
      end
    else (w, []) in
  let results :=
    match results with
    | [] => List.filter (matches (lower query)) popular_stocks
    | _ => results
    end in
  (w1, Ok (VList (py_slice_to results limit))).

(** [StockService.search_stocks]. *)
Definition search_stocks (query : string) (limit : Z)
    : world -> world * result value :=
  on_exception 3 (fun w =>
    if String.eqb query "" then
      (w, Ok (VList (py_slice_to popular_stocks limit)))
    else
      _get_cached_or_execute search
        ("search_" +:+ query +:+ "_" +:+ pretty limit)
        (search_fetch_data query limit) None w).

(** The world in which a function decorated with [@rate_limit] starts:
    the one left by [YAHOO_RATE_LIMITER.wait_if_needed()]. *)
Definition after_wait (w : world) : world := fst (on_machine yahoo_wait w).

(** ** Stock details *)

(** [get_stock_details.fetch_data]: the dict built from what the upstream
    source returned. *)
Definition details_fetch_data (symbol : string) (w : world)
    : world * result value :=
  match on_machine (yf_quote symbol) w with
  | (w1, Raise e) => (w1, Raise e)
  | (w1, Ok q) =>
      (w1,
       Ok (VDict
         [ ("symbol", VStr symbol);
           ("name", q_name q);
           ("price", q_price q);
           ("change", q_change q);
           ("percentChange", q_percentChange q);
           ("marketCap", q_marketCap q);
           ("volume", q_volume q);
           ("avgVolume", q_avgVolume q);
           ("pe", q_pe q);
           ("eps", q_eps q);
           ("dividend", q_dividend q);
           ("high52w", q_high52w q);
           ("low52w", q_low52w q);
           ("open", q_open q);
           ("previousClose", q_previousClose q);
           ("timestamp", VStr (strftime_now (os (machine w1))));
           ("dataSource", VStr "yfinance");
           ("analyst", q_analyst q) ]))
  end.

(** [StockService._get_mock_stock_details]: [random] is seeded from the
    symbol, the items are evaluated in the order of the dict display. *)
Definition _get_mock_stock_details (symbol : string) (w : world)
    : world * value :=
  let g0 := random_seed (hash symbol mod 10000) in
  let base_price := inject_Z (50 + hash symbol mod 100) in
  let '(u_price, g1) := random_uniform (-5) 5 g0 in
  let '(u_change, g2) := random_uniform (-2) 2 g1 in
  let '(u_percent, g3) := random_uniform (-2) 2 g2 in
  let '(u_cap, g4) := random_uniform 10 500 g3 in
  let '(u_volume, g5) := random_uniform 1 10 g4 in
  let '(u_avg, g6) := random_uniform 1 10 g5 in
  let '(u_pe, g7) := random_uniform 10 30 g6 in
  let '(u_eps, g8) := random_uniform 1 10 g7 in
  let '(u_dividend, g9) := random_uniform 0 3 g8 in
  let '(u_open, g10) := random_uniform (-2) 2 g9 in
  let '(u_prev, g11) := random_uniform (-1) 1 g10 in
  let now := strftime_now (os (machine w)) in
  let '(buy, g12) := random_randint 0 10 g11 in
  let '(hold, g13) := random_randint 0 5 g12 in
  let '(sell, g14) := random_randint 0 3 g13 in
  (mk_world (cache w) (mk_sys (yahoo (machine w)) g14 (os (machine w))),
   VDict
     [ ("symbol", VStr symbol);
       ("name", VStr (symbol +:+ " Corporation"));
       ("price", VNum (round (base_price + u_price) 2));
       ("change", VNum (round u_change 2));
       ("percentChange", VNum (round u_percent 2));
       ("marketCap", VNum (round (u_cap / 100) 2));
       ("volume", VNum (round u_volume 1));
       ("avgVolume", VNum (round u_avg 1));
       ("pe", VNum (round u_pe 1));
       ("eps", VNum (round u_eps 2));
       ("dividend", VNum (round u_dividend 2));
       ("high52w", VNum (round (base_price * (12 # 10)) 2));
       ("low52w", VNum (round (base_price * (8 # 10)) 2));
       ("open", VNum (round (base_price - u_open) 2));
       ("previousClose", VNum (round (base_price - u_prev) 2));
       ("timestamp", VStr now);
       ("dataSource", VStr "mock");
       ("analyst",
        VDict [("buy", VInt buy); ("hold", VInt hold); ("sell", VInt sell)]) ]).

(** The body of [get_stock_details], under its decorators. *)
Definition get_stock_details_body (symbol : string) (w : world)
    : world * result value :=
  let symbol := upper symbol in
  let cache_key := "details_" +:+ symbol in
  match _get_cached_or_execute realtime cache_key
          (details_fetch_data symbol) None w with
  | (w1, Ok v) => (w1, Ok v)
  | (w1, Raise e) =>
      let '(w2, v) := _get_mock_stock_details symbol w1 in (w2, Ok v)
  end.

(** [StockService.get_stock_details]. *)
Definition get_stock_details (symbol : string)
    : world -> world * result value :=
  rate_limit (on_exception 3 (get_stock_details_body symbol)).

(** ** Historical series *)

(** The [period], [interval] and [date_format] of a timeframe. *)
Definition timeframe_params (timeframe : string) : string * string * string :=
  if String.eqb timeframe "1d" then ("1d", "5m", "%H:%M")
  else if String.eqb timeframe "1w" then ("1wk", "1h", "%a")
  else if String.eqb timeframe "1m" then ("1mo", "1d", "%d")
  else if String.eqb timeframe "3m" then ("3mo", "1d", "%b %d")
  else if String.eqb timeframe "1y" then ("1y", "1wk", "%b")
  else ("max", "1mo", "%Y").

(** [get_historical_data.fetch_data]. *)
Definition historical_fetch_data (symbol timeframe : string) (w : world)
    : world * result value :=
  let '(period, interval, date_format) := timeframe_params timeframe in
  match on_machine (yf_history symbol period interval date_format) w with
  | (w1, Raise e) => (w1, Raise e)
  | (w1, Ok s) =>
      (w1,
       Ok (VDict
         [ ("symbol", VStr symbol);
           ("timeframe", VStr timeframe);
           ("labels", s_labels s);
           ("data", s_data s);
           ("timestamps", s_timestamps s);
           ("updated_at", VStr (strftime_now (os (machine w1))));
           ("updated_by", VStr "lucifer0177");
           ("dataSource", VStr "yfinance") ]))
  end.

(** The [days], [points] and [date_format] of a mock series. *)
Definition mock_timeframe_params (timeframe : string) : Z * nat * string :=
  if String.eqb timeframe "1d" then (1%Z, 24%nat, "%H:%M")
  else if String.eqb timeframe "1w" then (7%Z, 7%nat, "%a")
  else if String.eqb timeframe "1m" then (30%Z, 30%nat, "%d")
  else if String.eqb timeframe "3m" then (90%Z, 12%nat, "%b %d")
  else if String.eqb timeframe "1y" then (365%Z, 52%nat, "%b")
  else (1825%Z, 60%nat, "%Y").

(** [StockService._get_mock_historical_data]: [random] is seeded from the
    symbol, but the returns are drawn from numpy's generator. *)
Definition _get_mock_historical_data (symbol timeframe : string) (w : world)
    : world * value :=
  let '(days, points, date_format) := mock_timeframe_params timeframe in
  let e := os (machine w) in
  let labels := date_range_strftime days points date_format e in
  let dates := date_range_strftime days points "%Y-%m-%d" e in
  let g := random_seed (hash symbol mod 10000) in
  let start_price := inject_Z (50 + hash symbol mod 200) in
  let volatility := ((2 # 100) + inject_Z (hash symbol mod 10) / 100)%Q in
  let '(returns, e1) := np_random_normal volatility points e in
  let trend := ((1 # 1000) * inject_Z (hash symbol mod 5 - 2))%Q in
  let prices :=
    foldl (fun prices ret =>
             prices ++ [(List.last prices 0 * (1 + ret + trend))%Q])
          [start_price] (tail returns) in
  (mk_world (cache w) (mk_sys (yahoo (machine w)) g e1),
   VDict
     [ ("symbol", VStr symbol);
       ("timeframe", VStr timeframe);
       ("labels", VList (VStr <$> labels));
       ("data", VList ((fun price => VNum (round price 2)) <$> prices));
       ("timestamps", VList (VStr <$> dates));
       ("updated_at", VStr (strftime_now e1));
       ("updated_by", VStr "mock_data");
       ("dataSource", VStr "mock") ]).

(** The body of [get_historical_data], under its decorators. *)
Definition get_historical_data_body (symbol timeframe : string) (w : world)
    : world * result value :=
  let symbol := upper symbol in
  let cache_key := "historical_" +:+ symbol +:+ "_" +:+ timeframe in
  match _get_cached_or_execute historical cache_key
          (historical_fetch_data symbol timeframe) None w with
  | (w1, Ok v) => (w1, Ok v)
  | (w1, Raise e) =>
      let '(w2, v) := _get_mock_historical_data symbol timeframe w1 in
      (w2, Ok v)
  end.

(** [StockService.get_historical_data]. *)
Definition get_historical_data (symbol timeframe : string)
    : world -> world * result value :=
  rate_limit (on_exception 3 (get_historical_data_body symbol timeframe)).

(** ** Market aggregates *)

(** [time.sleep(random.uniform(a, b))]. *)
Definition pace (a b : Q) (w : world) : world :=
  let '(d, g') := random_uniform a b (rng (machine w)) in
  mk_world (cache w)
           (mk_sys (yahoo (machine w)) g' (time_sleep d (os (machine w)))).

(** [get_market_summary.fetch_data]. *)
Definition market_fetch_data (w : world) : world * result value :=
  match on_machine yf_market w with
  | (w1, Raise e) => (w1, Raise e)
  | (w1, Ok (indices, sectors, status)) =>
      (w1,
       Ok (VDict
         [ ("indices", indices);
           ("sectorPerformance", sectors);
           ("marketStatus", status);
           ("timestamp", VStr (strftime_now (os (machine w1))));
           ("updatedBy", VStr "lucifer0177");
           ("dataSource", VStr "yfinance") ]))
  end.

Definition index_row (name : string) (v change percent : Q) : value :=
  VDict [("name", VStr name); ("value", VNum v); ("change", VNum change);
         ("percentChange", VNum percent)].

Definition sector_row (name : string) (percent : Q) : value :=
  VDict [("name", VStr name); ("percentChange", VNum percent)].

(** [StockService._get_mock_market_summary]. *)
Definition _get_mock_market_summary (w : world) : value :=
  VDict
    [ ("indices",
       VList [ index_row "S&P 500" (528014 # 100) (4232 # 100) (81 # 100);
               index_row "Dow Jones" (3890566 # 100) (15687 # 100) (40 # 100);
               index_row "Nasdaq" (1674239 # 100) (-2387 # 100) (-14 # 100) ]);
      ("sectorPerformance",
       VList [ sector_row "Technology" (153 # 100);
               sector_row "Healthcare" (87 # 100);
               sector_row "Financials" (-42 # 100);
               sector_row "Energy" (-132 # 100);
               sector_row "Consumer" (35 # 100) ]);
      ("marketStatus", VStr "closed");
      ("timestamp", VStr (strftime_now (os (machine w))));
      ("updatedBy", VStr "mock_data");
      ("dataSource", VStr "mock") ].

(** [StockService.get_market_summary]. *)
Definition get_market_summary : world -> world * result value :=
  rate_limit (on_exception 3 (fun w =>
    match _get_cached_or_execute market "market_summary"
            market_fetch_data None w with
    | (w1, Ok v) => (w1, Ok v)
    | (w1, Raise e) => (w1, Ok (_get_mock_market_summary w1))
    end)).

(** [get_market_movers.fetch_data]. *)
Definition movers_fetch_data (limit : Z) (w : world) : world * result value :=
  match on_machine (yf_movers limit) w with
  | (w1, Raise e) => (w1, Raise e)
  | (w1, Ok (gainers, losers)) =>
      (w1,
       Ok (VDict
         [ ("gainers", gainers);
           ("losers", losers);
           ("timestamp", VStr (strftime_now (os (machine w1))));
           ("updatedBy", VStr "lucifer0177");
           ("dataSource", VStr "yfinance") ]))
  end.

Definition mover_row (symbol name : string) (price change percent : Q)
    : value :=
  VDict [("symbol", VStr symbol); ("name", VStr name); ("price", VNum price);
         ("change", VNum change); ("percentChange", VNum percent)].

(** [StockService._get_mock_market_movers]. *)
Definition _get_mock_market_movers (w : world) : value :=
  VDict
    [ ("gainers",
       VList
         [ mover_row "NVDA" "NVIDIA Corporation" (95037 # 100) (4878 # 100) (542 # 100);
           mover_row "TSLA" "Tesla Inc" (17822 # 100) (650 # 100) (378 # 100);
           mover_row "AAPL" "Apple Inc" (24356 # 100) (321 # 100) (134 # 100);
           mover_row "AMZN" "Amazon.com Inc" (18175 # 100) (192 # 100) (107 # 100);
           mover_row "GOOGL" "Alphabet Inc" (18763 # 100) (175 # 100) (94 # 100) ]);
      ("losers",
       VList
         [ mover_row "META" "Meta Platforms Inc" (47512 # 100) (-1210 # 100) (-248 # 100);
           mover_row "JPM" "JPMorgan Chase & Co" (17892 # 100) (-338 # 100) (-185 # 100);
           mover_row "MSFT" "Microsoft Corporation" (42087 # 100) (-253 # 100) (-60 # 100);
           mover_row "JNJ" "Johnson & Johnson" (14762 # 100) (-75 # 100) (-51 # 100);
           mover_row "V" "Visa Inc" (29845 # 100) (-102 # 100) (-34 # 100) ]);
      ("timestamp", VStr (strftime_now (os (machine w))));
      ("updatedBy", VStr "mock_data");
      ("dataSource", VStr "mock") ].

(** [StockService.get_market_movers]. *)
Definition get_market_movers (limit : Z) : world -> world * result value :=
  rate_limit (on_exception 3 (fun w =>
    let limit := Z.min limit 5 in
    match _get_cached_or_execute market ("movers_" +:+ pretty limit)
            (movers_fetch_data limit) None w with
    | (w1, Ok v) => (w1, Ok v)
    | (w1, Raise e) => (w1, Ok (_get_mock_market_movers w1))
    end)).

(** The loop of [get_most_watched.fetch_data]. *)
Fixpoint watched_loop (symbols : list string) (watched : list value)
    (w : world) : world * list value :=
  match symbols with
  | [] => (w, watched)
  | symbol :: rest =>
      let '(w1, watched1) :=
        match get_stock_details symbol w with
        | (w1, Ok stock) =>
            (w1, if truthy stock then watched ++ [stock] else watched)
        | (w1, Raise e) => (w1, watched)
        end in
      watched_loop rest watched1 (pace (3 # 10) (6 # 10) w1)
  end.

(** [get_most_watched.fetch_data]. *)
Definition watched_fetch_data (limit : Z) (w : world) : world * result value :=
  let popular_symbols :=
    py_slice_to ["AAPL"; "MSFT"; "GOOGL"; "AMZN"; "TSLA"] limit in
  let '(w1, watched) := watched_loop popular_symbols [] w in
  let source :=
    match watched with
    | [] => Ok (VStr "unknown")
    | VDict d :: _ =>
        match dict_get "dataSource" d with
        | Some v => Ok v
        | None => Raise (KeyError "dataSource")
        end
    | _ :: _ => Raise (TypeError "not subscriptable")
    end in
  match source with
  | Raise e => (w1, Raise e)
  | Ok source =>
      (w1,
       Ok (VDict
         [ ("stocks", VList watched);
           ("timestamp", VStr (strftime_now (os (machine w1))));
           ("updatedBy", VStr "lucifer0177");
           ("dataSource", source) ]))
  end.

(** [StockService._get_mock_most_watched]. *)
Definition _get_mock_most_watched (w : world) : value :=
  VDict
    [ ("stocks",
       VList
         [ mover_row "AAPL" "Apple Inc." (24356 # 100) (321 # 100) (134 # 100);
           mover_row "MSFT" "Microsoft Corporation" (42087 # 100) (-253 # 100) (-60 # 100);
           mover_row "GOOGL" "Alphabet Inc." (18763 # 100) (175 # 100) (94 # 100);
           mover_row "AMZN" "Amazon.com Inc." (18175 # 100) (192 # 100) (107 # 100);
           mover_row "TSLA" "Tesla Inc." (17822 # 100) (650 # 100) (378 # 100) ]);
      ("timestamp", VStr (strftime_now (os (machine w))));
      ("updatedBy", VStr "mock_data");
      ("dataSource", VStr "mock") ].

(** [StockService.get_most_watched]. *)
Definition get_most_watched (limit : Z) : world -> world * result value :=
  rate_limit (fun w =>
    let limit := Z.min limit 5 in
    match _get_cached_or_execute market ("watched_" +:+ pretty limit)
            (watched_fetch_data limit) None w with
    | (w1, Ok v) => (w1, Ok v)
    | (w1, Raise e) => (w1, Ok (_get_mock_most_watched w1))
    end).

(** ** Batch resolution *)

(** The fresh entry of a symbol in the realtime tier, as the first pass
    of [get_batch_stock_details] looks it up (the symbol is used as
    given). *)
Definition cached_fresh (now : Q) (c : cache_store) (symbol : string)
    : option value :=
  match realtime_cache c !! ("details_" +:+ symbol) with
  | Some hit =>
      if Qltb (now - timestamp hit) REALTIME_TTL then Some (data hit)
      else None
  | None => None
  end.

(** [for symbol in symbols: ... results[symbol] = ...['data']]. *)
Definition batch_precheck (now : Q) (c : cache_store) (symbols : list string)
    : gmap string value :=
  foldl (fun results symbol =>
           match cached_fresh now c symbol with
           | Some d => <[symbol := d]> results
           | None => results
           end)
        ∅ symbols.

(** One turn of the inner loop: pace, resolve, and on an exception fall
    back to the mock of the symbol. *)
Definition process_symbol (symbol : string)
    (st : world * gmap string value) : world * gmap string value :=
  let '(w, results) := st in
  let w1 := pace (5 # 10) 1 w in
  match get_stock_details symbol w1 with
  | (w2, Ok v) => (w2, <[symbol := v]> results)
  | (w2, Raise e) =>
      let '(w3, v) := _get_mock_stock_details symbol w2 in
      (w3, <[symbol := v]> results)
  end.

(** One turn of the outer loop, for [batch = symbols_to_fetch[i:i+3]]. *)
Definition process_batch (symbols_to_fetch : list string) (i : nat)
    (st : world * gmap string value) : world * gmap string value :=
  let batch_size := 3 in
  let batch := take batch_size (drop i symbols_to_fetch) in
  let st1 := foldl (fun st symbol => process_symbol symbol st) st batch in
  if i + batch_size <? length symbols_to_fetch
  then (pace 1 2 (fst st1), snd st1)
  else st1.

(** [StockService.get_batch_stock_details]. *)
Definition get_batch_stock_details (symbols : list string) (w : world)
    : world * result (gmap string value) :=
  match symbols with
  | [] => (w, Ok ∅)
  | _ :: _ =>
      let now := time_time (os (machine w)) in
      let results := batch_precheck now (cache w) symbols in
      let symbols_to_fetch :=
        List.filter (fun s => bool_decide (results !! s = None)) symbols in
      let '(w', results') :=
        foldl (fun st i => process_batch symbols_to_fetch i st)
              (w, results)
              (py_range_step (length symbols_to_fetch) 3) in
      (w', Ok results')
  end.

End Service.
End StockService.

(* ===================================================================== *)
(** * CacheCleanupService                                                 *)
(* ===================================================================== *)

Module CacheCleanupService.
Section Cleanup.
Context {G E : Type} `{Runtime G E}.

(** [CacheCleanupService._perform_cleanup]: the realtime and the
    historical tier, each with a buffer of 60 seconds over its TTL. *)
Definition _perform_cleanup (w : world G E) : world G E :=
  let now := time_time (os (machine w)) in
  let c := cache w in
  mk_world
    (mk_cache (sweep now (REALTIME_TTL + 60) (realtime_cache c))
              (sweep now (HISTORICAL_TTL + 60) (historical_cache c))
              (search_cache c)
              (market_cache c))
    (machine w).

End Cleanup.
End CacheCleanupService.

(** What a sweep with bound [bound] at time [now] leaves of the entry
    under a key. *)
Definition kept (now bound : Q) (o : option entry) : option entry :=
  match o with
  | Some e => if Qgtb (now - timestamp e) bound then None else Some e
  | None => None
  end.

(** [v["symbol"]], when [v] is a dict that has the key. *)
Definition data_symbol (v : value) : option value :=
  match v with
  | VDict d => dict_get "symbol" d
  | _ => None
  end.

(** Whether [v["dataSource"]] is one of the strings of [allowed]. *)
Definition source_in (allowed : list string) (v : value) : bool :=
  match data_source v with
  | Some (VStr s) => bool_decide (s ∈ allowed)
  | _ => false
  end.

(** The values of ["dataSource"] the specification names, and the ones the
    service writes. *)
Definition specified_sources : list string := ["live"; "stale"; "mock"].
Definition written_sources : list string := ["yfinance"; "mock"; "unknown"].

(** ["dataSource"] of what an operation returned. *)
Definition result_source (r : result value) : option value :=
  match r with
  | Ok v => data_source v
  | Raise _ => None
  end.

(** Every entry of the realtime, historical and market tiers carries one
    of the written sources (the search tier holds plain lists). *)
Definition cache_sourced (c : cache_store) : Prop :=
  forall (t : cache_type) (k : string) (e : entry),
    t <> search -> tier c t !! k = Some e ->
    source_in written_sources (data e) = true.

(** What C6 asks of an operation: a value with a written source, in a
    world whose cache still holds only such values. *)
Definition sourced {G E : Type} (out : world G E * result value) : Prop :=
  cache_sourced (cache (fst out)) /\
  exists v, snd out = Ok v /\ source_in written_sources v = true.

(** The upstream source fails, or succeeds, for a symbol whenever asked. *)
Definition upstream_always_fails {G E : Type} `{Upstream G E}
    (symbol : string) : Prop :=
  forall s : sys G E, exists s' e, yf_quote symbol s = (s', Raise e).

Definition upstream_always_succeeds {G E : Type} `{Upstream G E}
    (symbol : string) : Prop :=
  forall s : sys G E, exists s' q, yf_quote symbol s = (s', Ok q).

(** Every entry of the realtime tier is a quote fetched from upstream. *)
Definition realtime_live (c : cache_store) : Prop :=
  forall (k : string) (e : entry),
    realtime_cache c !! k = Some e ->
    data_source (data e) = Some (VStr "yfinance").

(** A dict without its wall-clock ["timestamp"] item. *)
Definition without_timestamp (v : value) : value :=
  match v with
  | VDict d =>
      VDict (List.filter (fun kv => negb (String.eqb (fst kv) "timestamp")) d)
  | _ => v
  end.

(* ===================================================================== *)
(** * A small machine to run the service on                               *)
(* ===================================================================== *)

Module Demo.

(** The generator state is a counter and every draw is the middle of its
    range; the machine state is the wall clock in seconds, printed as its
    whole part; a sleep takes exactly as long as asked. *)
#[export] Instance runtime : Runtime Z Q := {
  random_seed := fun z => z;
  random_random := fun g => ((1 # 2)%Q, (g + 1)%Z);
  random_randbelow := fun n g => ((n / 2)%Z, (g + 1)%Z);
  time_time := fun e => e;
  time_sleep := fun d e => (e + d)%Q;
  strftime_now := fun e => pretty (Qnum e / Zpos (Qden e))%Z;
  date_range_strftime := fun days points fmt e => replicate points fmt;
  np_random_normal := fun sigma n e => (replicate n 0%Q, e);
  hash := fun s => Z.of_nat (String.length s);
  round := fun q ndigits => q
}.

Definition quote_of (symbol : string) : quote :=
  mk_quote (VStr (symbol +:+ " Inc.")) (VNum 100) (VNum 1) (VNum 1)
           (VNum 2) (VNum 3) (VNum 3) (VNum 20) (VNum 5) (VNum 0)
           (VNum 120) (VNum 80) (VNum 99) (VNum 99)
           (VDict [("buy", VInt 0); ("hold", VInt 0); ("sell", VInt 0)]).

(** The upstream source knows every symbol but ["BAD"]. *)
#[export] Instance upstream : Upstream Z Q := {
  yf_quote := fun symbol s =>
    if String.eqb symbol "BAD" then (s, Raise (UpstreamError "no data"))
    else (s, Ok (quote_of symbol));
  yf_history := fun symbol period interval date_format s =>
    if String.eqb symbol "BAD" then (s, Raise (UpstreamError "no data"))
    else (s, Ok (mk_series (VList []) (VList []) (VList [])));
  yf_market := fun s => (s, Ok (VList [], VList [], VStr "closed"));
  yf_movers := fun limit s => (s, Ok (VList [], VList []));
  yf_symbol_name := fun query s => (s, None)
}.

(** A fresh process at wall-clock time [now]. *)
Definition boot (now : Q) : world Z Q :=
  mk_world empty_cache (mk_sys [] 0%Z now).

(** A process at time [now] whose realtime tier holds one quote of AAPL,
    fetched at time 0. *)
Definition aapl_quote : value :=
  VDict [("symbol", VStr "AAPL"); ("dataSource", VStr "yfinance")].

Definition with_aapl (now : Q) : world Z Q :=
  mk_world
    (mk_cache {[ "details_AAPL" := mk_entry aapl_quote 0 ]} ∅ ∅
              {[ "market_summary" := mk_entry aapl_quote 0 ]})
    (mk_sys [] 0%Z now).

(** The same process [d] seconds later. *)
Definition later (d : Q) (w : world Z Q) : world Z Q :=
  mk_world (cache w)
           (mk_sys (yahoo (machine w)) (rng (machine w)) (os (machine w) + d)%Q).

(** A fetch function that succeeds and one that fails; both leave a mark
    on the generator state. *)
Definition fetch_ok (w : world Z Q) : world Z Q * result value :=
  (mk_world (cache w) (mk_sys (yahoo (machine w)) 7%Z (os (machine w))),
   Ok (VStr "fetched")).

Definition fetch_fails (w : world Z Q) : world Z Q * result value :=
  (mk_world (cache w) (mk_sys (yahoo (machine w)) 7%Z (os (machine w))),
   Raise (UpstreamError "timeout")).

End Demo.

(* ===================================================================== *)
(** * The life of the process                                             *)
(* ===================================================================== *)

Module Process.
Section Reachable.
Context {G E : Type} `{Runtime G E} `{Upstream G E}.

(** The states of the process: the service starts with four empty tiers;
    then the public operations and the two sweepers run, one at a time,
    and between them anything outside the cache may change. *)
Inductive reachable : world G E -> Prop :=
| reach_start s :
    reachable (mk_world empty_cache s)
| reach_machine w s :
    reachable w -> reachable (mk_world (cache w) s)
| reach_search w query limit :
    reachable w -> reachable (fst (StockService.search_stocks query limit w))
| reach_details w symbol :
    reachable w -> reachable (fst (StockService.get_stock_details symbol w))
| reach_batch w symbols :
    reachable w ->
    reachable (fst (StockService.get_batch_stock_details symbols w))
| reach_historical w symbol timeframe :
    reachable w ->
    reachable (fst (StockService.get_historical_data symbol timeframe w))
| reach_summary w :
    reachable w -> reachable (fst (StockService.get_market_summary w))
| reach_movers w limit :
    reachable w -> reachable (fst (StockService.get_market_movers limit w))
| reach_watched w limit :
    reachable w -> reachable (fst (StockService.get_most_watched limit w))
| reach_cleanup w :
    reachable w -> reachable (StockService._cleanup_cache w)
| reach_perform_cleanup w :
    reachable w -> reachable (CacheCleanupService._perform_cleanup w).

End Reachable.
End Process.

(* ===================================================================== *)
(** * Market hours                                                        *)
(* ===================================================================== *)

(** [StockService._get_market_status], from the weekday (Monday is 0),
    hour and minute of [datetime.now()]. *)
Definition _get_market_status (weekday hour minute : Z) : string :=
  if (weekday <? 5)%Z then
    let eastern_hour := ((hour - 4) mod 24)%Z in
    if ((9 <=? eastern_hour)%Z && (eastern_hour <? 16)%Z)
       || ((eastern_hour =? 9)%Z && (30 <=? minute)%Z)
    then "open"
    else "closed"
  else "closed".

(* ===================================================================== *)
(** * The route layer                                                     *)
(* ===================================================================== *)

Module Routes.





(** [s.split(sep)] for a separator of one character. *)
Fixpoint split (sep : Ascii.ascii) (s : string) : list string :=
  match s with
  | EmptyString => [EmptyString]
  | String c rest =>
      if Ascii.eqb c sep then EmptyString :: split sep rest
      else
        match split sep rest with
        | [] => [String c EmptyString]
        | field :: fields => String c field :: fields
        end
  end.



(** [str(e)] of an exception. *)
Definition exn_str (e : exn) : string :=
  match e with
  | IndexError msg | KeyError msg | TypeError msg
  | ValueError msg | UpstreamError msg => msg
  end.

(** What a handler hands to Flask: the JSON body, [{'success': True,
    'data': ...}] or [{'success': False, 'error': ...}], and the HTTP
    status. *)
Inductive body (A : Type) : Type :=
| Success (data : A)
| Failure (error : string).
Arguments Success {A} data.
Arguments Failure {A} error.

Definition response (A : Type) : Type := (body A * Z)%type.

Section Handlers.
Context {G E : Type} `{Runtime G E} `{Upstream G E}.

(** The [try: ... except Exception as e: ...] of every handler around one
    service call. *)
Definition answer {A} (call : world G E * result A)
    : world G E * response A :=
  match call with
  | (w', Ok data) => (w', (Success data, 200%Z))
  | (w', Raise e) => (w', (Failure (exn_str e), 500%Z))
  end.

(** [GET /stocks/<symbol>]. *)
Definition get_stock_details (symbol : string) (w : world G E)
    : world G E * response value :=
  answer (StockService.get_stock_details symbol w).

(** [GET /stocks/<symbol>/historical]. *)
Definition get_historical_data (symbol timeframe : string) (w : world G E)
    : world G E * response value :=
  answer (StockService.get_historical_data symbol timeframe w).

(** [GET /stocks]. *)
Definition get_stocks (query : string) (limit : Z) (w : world G E)
    : world G E * response value :=
  answer (StockService.search_stocks query limit w).

(** [GET /market/summary], [/market/movers] and [/market/most-watched]. *)
Definition get_market_summary (w : world G E) : world G E * response value :=
  answer (StockService.get_market_summary w).

Definition get_market_movers (limit : Z) (w : world G E)
    : world G E * response value :=
  answer (StockService.get_market_movers limit w).

Definition get_most_watched (limit : Z) (w : world G E)
    : world G E * response value :=
  answer (StockService.get_most_watched limit w).


(** ["price" in stock_data]. *)
Definition has_key (key : string) (v : value) : bool :=
  match v with
  | VDict d => match dict_get key d with Some _ => true | None => false end
  | _ => false
  end.

(** The [api_status] of [GET /health]. *)
Definition health_check (w : world G E) : world G E * string :=
  match StockService.get_stock_details "AAPL" w with
  | (w', Ok stock_data) =>
      (w', if truthy stock_data && has_key "price" stock_data
           then "ok" else "degraded")
  | (w', Raise _) => (w', "error")
  end.

End Handlers.
End Routes.


(** * The prediction service (services/prediction_service.py) *)

Module PredictionService.

(** A prediction: the dict that the model returns. *)
Definition dict : Type := list (string * value).

(** [d[key] = v] on a dict: an existing key keeps its place. *)
Fixpoint dict_set (key : string) (v : value) (d : dict) : dict :=
  match d with
  | [] => [(key, v)]
  | (k, x) :: rest =>
      if String.eqb k key then (k, v) :: rest
      else (k, x) :: dict_set key v rest
  end.

(** What the service calls: the model and the wall clock. *)
Class Model (E : Type) := {
  (** [self.model.predict(symbol, timeframe)]. *)
  model_predict : string -> string -> E -> E * result dict;
  (** [datetime.now()], in seconds. *)
  datetime_now : E -> Q;
  (** [t.strftime('%Y-%m-%d %H:%M:%S')]. *)
  strftime : Q -> string
}.

(** The service's two dicts, and the environment it runs in. *)
Record t (E : Type) := mk {
  prediction_cache : gmap string dict;
  cache_expiry : gmap string Q;
  env : E
}.
Arguments mk {E} _ _ _.
Arguments prediction_cache {E} _.
Arguments cache_expiry {E} _.
Arguments env {E} _.

Section Service.
Context {E : Type} `{Model E}.

(** [PredictionService.__init__]. *)
Definition init (e : E) : t E := mk ∅ ∅ e.

(** [f"{symbol}_{timeframe}"]. *)
Definition cache_key (symbol timeframe : string) : string :=
  symbol +:+ "_" +:+ timeframe.

(** [timedelta(hours=1)], in seconds. *)
Definition one_hour : Q := 3600.

(** [PredictionService.predict]. *)
Definition predict (symbol timeframe : string) (self : t E)
    : t E * result dict :=
  let cache_key := cache_key symbol timeframe in
  let current_time := datetime_now (env self) in
  let compute :=
    match model_predict symbol timeframe (env self) with
    | (e1, Ok prediction_result) =>
        let prediction_result :=
          dict_set "timestamp" (VStr (strftime current_time))
            prediction_result in
        let prediction_result :=
          dict_set "updatedBy" (VStr "lucifer0177continue")
            prediction_result in
        (mk (<[cache_key := prediction_result]> (prediction_cache self))
            (<[cache_key := (current_time + one_hour)%Q]>
               (cache_expiry self))
            e1,
         Ok prediction_result)
    | (e1, Raise e) =>
        match prediction_cache self !! cache_key with
        | Some old => (mk (prediction_cache self) (cache_expiry self) e1,
                       Ok old)
        | None => (mk (prediction_cache self) (cache_expiry self) e1,
                   Raise e)
        end
    end in
  match prediction_cache self !! cache_key,
        cache_expiry self !! cache_key with
  | Some cached, Some expiry =>
      if Qltb current_time expiry then (self, Ok cached) else compute
  | _, _ => compute
  end.

(** The same service in another environment: time has passed. *)
Definition at_env (self : t E) (e : E) : t E :=
  mk (prediction_cache self) (cache_expiry self) e.

(** The states of a service: it starts empty, its environment moves, and
    [predict] is called. *)
Inductive reachable : t E -> Prop :=
| reach_init (e : E) : reachable (init e)
| reach_env (self : t E) (e : E) :
    reachable self -> reachable (at_env self e)
| reach_predict (self : t E) (symbol timeframe : string) :
    reachable self -> reachable (fst (predict symbol timeframe self)).

End Service.

(** The metadata that [predict] writes into a prediction. *)
Definition stamped (p : dict) : Prop :=
  dict_get "updatedBy" p = Some (VStr "lucifer0177continue") /\
  exists ts, dict_get "timestamp" p = Some (VStr ts).

(** A model that answers for every symbol but ["BAD"], on a clock that
    counts seconds. *)
Module Demo.

#[export] Instance model : Model Q := {
  model_predict symbol timeframe e :=
    if String.eqb symbol "BAD"
    then (e, Raise (ValueError "no data"))
    else (e, Ok [("symbol", VStr symbol); ("timeframe", VStr timeframe)]);
  datetime_now e := e;
  strftime q := pretty (Qnum q / Zpos (Qden q))%Z
}.

End Demo.

End PredictionService.
(* ===================================================================== *)
(** * Facts about rational comparisons                                    *)
(* ===================================================================== *)

Lemma Qgtb_true (a b : Q) : Qgtb a b = true <-> (b < a)%Q.
Proof.
  unfold Qgtb. rewrite negb_true_iff. split.
  - intros Hb. apply Qnot_le_lt. intros Hle.
    apply Qle_bool_iff in Hle. congruence.
  - intros Hlt. destruct (Qle_bool a b) eqn:Hb; [|reflexivity].
    apply Qle_bool_iff in Hb. lra.
Qed.

Lemma Qgtb_false (a b : Q) : Qgtb a b = false <-> (a <= b)%Q.
Proof.
  unfold Qgtb. rewrite negb_false_iff. apply Qle_bool_iff.
Qed.

Lemma Qltb_true (a b : Q) : Qltb a b = true <-> (a < b)%Q.
Proof. unfold Qltb. apply (Qgtb_true b a). Qed.

Lemma Qltb_false (a b : Q) : Qltb a b = false <-> (b <= a)%Q.
Proof. unfold Qltb. apply (Qgtb_false b a). Qed.

Lemma py_max0_ge (x : Q) : (x <= py_max0 x)%Q.
Proof.
  unfold py_max0. destruct (Qgtb x 0) eqn:Hx; [lra|].
  apply Qgtb_false in Hx. lra.
Qed.

(* ===================================================================== *)
(** * RateLimiter: the sliding-window invariant and the lock              *)
(* ===================================================================== *)

Module RateLimiterFacts.
Import RateLimiter.





Section Invariant.
Context {Env : Type} `{Clock Env}.

(** The machine keeps time: a sleep of [d] lasts at least [d], and
    drawing the jitter yields a positive number without turning the
    clock back. *)
Hypothesis sleep_lasts :
  forall d e, (time_time e + d <= time_time (time_sleep d e))%Q.
Hypothesis jitter_positive :
  forall e, (0 < fst (jitter e))%Q /\
            (time_time e <= time_time (snd (jitter e)))%Q.

Variable N : Z.
Variable P : Q.
Hypothesis N_pos : (1 <= N)%Z.






End Invariant.


Lemma ideal_sleep_lasts (d e0 : Q) :
  (time_time e0 + d <= time_time (time_sleep d e0))%Q.
Proof. simpl. lra. Qed.

Lemma ideal_jitter_positive (e0 : Q) :
  (0 < fst (jitter e0))%Q /\
  (time_time e0 <= time_time (snd (jitter e0)))%Q.
Proof. simpl. split; lra. Qed.





End RateLimiterFacts.

(* ===================================================================== *)
(** * The read-through cache                                              *)
(* ===================================================================== *)

Module CacheFacts.
Import StockService.

Section ReadThrough.
Context {G E : Type} `{Runtime G E} `{Upstream G E}.

(** C2.  A fresh entry ([now - storedAt < ttl]) is returned as it is and
    the world comes back untouched whatever [fetch_func] is, so
    [fetch_func] has not run; without a fresh entry [fetch_func] runs on
    the current world, and when it succeeds its result is stored under
    the key, stamped with [now], and returned. *)
Theorem cached_or_execute_freshness (cache_type : cache_type)
    (cache_key : string) (fetch_func : world G E -> world G E * result value)
    (ttl : option Q) (w : world G E) :
  let now := time_time (os (machine w)) in
  let ttl' := match ttl with Some x => x | None => tier_ttl cache_type end in
  (forall hit,
     tier (cache w) cache_type !! cache_key = Some hit ->
     (now - timestamp hit < ttl')%Q ->
     _get_cached_or_execute cache_type cache_key fetch_func ttl w
       = (w, Ok (data hit))) /\
  ((forall hit,
      tier (cache w) cache_type !! cache_key = Some hit ->
      (ttl' <= now - timestamp hit)%Q) ->
   forall w1 r,
     fetch_func w = (w1, Ok r) ->
     _get_cached_or_execute cache_type cache_key fetch_func ttl w
       = (mk_world
            (set_tier (cache w1) cache_type
               (<[cache_key := mk_entry r now]> (tier (cache w1) cache_type)))
            (machine w1),
          Ok r)).
Proof.
  simpl. split.
  - intros hit Hhit Hfresh. unfold _get_cached_or_execute.
    rewrite Hhit. apply Qltb_true in Hfresh. by rewrite Hfresh.
  - intros Hstale w1 r Hfetch. unfold _get_cached_or_execute.
    rewrite Hfetch.
    destruct (tier (cache w) cache_type !! cache_key) as [hit|] eqn:Hhit;
      [|done].
    specialize (Hstale hit eq_refl). apply Qltb_false in Hstale.
    by rewrite Hstale.
Qed.

(** C3, amended.  When no fresh entry exists and [fetch_func] raises, an
    entry under the key, expired or not, is returned exactly as it was
    stored (no tag is added to it); with no entry under the key the
    exception of [fetch_func] goes to the caller. *)
Theorem cached_or_execute_fallback (cache_type : cache_type)
    (cache_key : string) (fetch_func : world G E -> world G E * result value)
    (ttl : option Q) (w w1 : world G E) (e : exn) :
  let now := time_time (os (machine w)) in
  let ttl' := match ttl with Some x => x | None => tier_ttl cache_type end in
  (forall hit,
     tier (cache w) cache_type !! cache_key = Some hit ->
     (ttl' <= now - timestamp hit)%Q) ->
  fetch_func w = (w1, Raise e) ->
  (forall old,
     tier (cache w1) cache_type !! cache_key = Some old ->
     _get_cached_or_execute cache_type cache_key fetch_func ttl w
       = (w1, Ok (data old))) /\
  (tier (cache w1) cache_type !! cache_key = None ->
   _get_cached_or_execute cache_type cache_key fetch_func ttl w
     = (w1, Raise e)).
Proof.
  simpl. intros Hstale Hfetch.
  assert (Hexec :
    _get_cached_or_execute cache_type cache_key fetch_func ttl w
    = match tier (cache w1) cache_type !! cache_key with
      | Some old => (w1, Ok (data old))
      | None => (w1, Raise e)
      end).
  { unfold _get_cached_or_execute. rewrite Hfetch.
    destruct (tier (cache w) cache_type !! cache_key) as [hit|] eqn:Hhit;
      [|done].
    specialize (Hstale hit eq_refl). apply Qltb_false in Hstale.
    by rewrite Hstale. }
  split.
  - intros old Hold. by rewrite Hexec, Hold.
  - intros Hnone. by rewrite Hexec, Hnone.
Qed.

End ReadThrough.

Import Demo.

Lemma cached_or_execute_freshness_witness :
  _get_cached_or_execute realtime "details_AAPL" Demo.fetch_ok None
      (Demo.with_aapl 10)
    = (Demo.with_aapl 10, Ok Demo.aapl_quote) /\
  _get_cached_or_execute realtime "details_AAPL" Demo.fetch_ok None
      (Demo.with_aapl 30)
    = (mk_world
         (set_tier (cache (Demo.fetch_ok (Demo.with_aapl 30)).1) realtime
            (<["details_AAPL" := mk_entry (VStr "fetched") 30]>
               (tier (cache (Demo.fetch_ok (Demo.with_aapl 30)).1) realtime)))
         (machine (Demo.fetch_ok (Demo.with_aapl 30)).1),
       Ok (VStr "fetched")).
Proof.
  split.
  - apply (proj1 (cached_or_execute_freshness realtime "details_AAPL"
                    Demo.fetch_ok None (Demo.with_aapl 10))
             (mk_entry Demo.aapl_quote 0)).
    + reflexivity.
    + reflexivity.
  - assert (Hstale : forall hit,
      tier (cache (Demo.with_aapl 30)) realtime !! "details_AAPL" = Some hit ->
      (tier_ttl realtime <= time_time (os (machine (Demo.with_aapl 30)))
                            - timestamp hit)%Q).
    { intros hit Hhit. vm_compute in Hhit.
      injection Hhit as <-. vm_compute. discriminate. }
    exact (proj2 (cached_or_execute_freshness realtime "details_AAPL"
                    Demo.fetch_ok None (Demo.with_aapl 30))
             Hstale (Demo.fetch_ok (Demo.with_aapl 30)).1 (VStr "fetched")
             eq_refl).
Defined.

(** C3, as stated, fails: the expired quote of AAPL comes back from a
    failed fetch with the ["dataSource"] it was stored with, not with
    ["stale"]. *)
Lemma fallback_keeps_data_source :
  _get_cached_or_execute realtime "details_AAPL" Demo.fetch_fails None
      (Demo.with_aapl 45)
    = ((Demo.fetch_fails (Demo.with_aapl 45)).1, Ok Demo.aapl_quote) /\
  data_source Demo.aapl_quote = Some (VStr "yfinance") /\
  data_source Demo.aapl_quote <> Some (VStr "stale").
Proof. split; [reflexivity|]. split; [reflexivity|discriminate]. Qed.

Lemma cached_or_execute_fallback_witness :
  _get_cached_or_execute realtime "details_AAPL" Demo.fetch_fails None
      (Demo.with_aapl 45)
    = ((Demo.fetch_fails (Demo.with_aapl 45)).1, Ok Demo.aapl_quote) /\
  _get_cached_or_execute realtime "details_MSFT" Demo.fetch_fails None
      (Demo.with_aapl 45)
    = ((Demo.fetch_fails (Demo.with_aapl 45)).1,
       Raise (UpstreamError "timeout")).
Proof.
  split.
  - apply (proj1 (cached_or_execute_fallback realtime "details_AAPL"
                    Demo.fetch_fails None (Demo.with_aapl 45)
                    (Demo.fetch_fails (Demo.with_aapl 45)).1
                    (UpstreamError "timeout")
                    ltac:(intros hit Hhit; vm_compute in Hhit;
                          injection Hhit as <-; vm_compute; discriminate)
                    eq_refl)
             (mk_entry Demo.aapl_quote 0)).
    reflexivity.
  - apply (proj2 (cached_or_execute_fallback realtime "details_MSFT"
                    Demo.fetch_fails None (Demo.with_aapl 45)
                    (Demo.fetch_fails (Demo.with_aapl 45)).1
                    (UpstreamError "timeout")
                    ltac:(intros hit Hhit; vm_compute in Hhit;
                          discriminate)
                    eq_refl)).
    reflexivity.
Defined.

End CacheFacts.

(* ===================================================================== *)
(** * The two sweepers                                                    *)
(* ===================================================================== *)

Module SweeperFacts.
Import StockService CacheCleanupService.

Lemma lookup_foldl_delete (keys : list string) (m : gmap string entry)
    (k : string) :
  foldl (fun acc key => delete key acc) m keys !! k
  = if bool_decide (k ∈ keys) then None else m !! k.
Proof.
  revert m. induction keys as [|key keys IH]; intros m; cbn [foldl].
  - case_bool_decide as Hin; [|done]. by apply elem_of_nil in Hin.
  - rewrite IH. case_bool_decide as Hin; case_bool_decide as Hin'.
    + done.
    + exfalso. apply Hin'. by apply list_elem_of_further.
    + apply elem_of_cons in Hin' as [->|Hin']; [|done].
      apply lookup_delete_eq.
    + apply lookup_delete_ne. intros ->. apply Hin'. apply list_elem_of_here.
Qed.

Lemma elem_of_expired_keys (now bound : Q) (m : gmap string entry)
    (k : string) :
  k ∈ expired_keys now bound m <->
  exists e, m !! k = Some e /\ Qgtb (now - timestamp e) bound = true.
Proof.
  unfold expired_keys. rewrite list_elem_of_fmap. split.
  - intros ([k' e] & -> & Hin). apply list_elem_of_In, filter_In in Hin.
    destruct Hin as [Hin Hexp]. apply list_elem_of_In in Hin.
    apply elem_of_map_to_list in Hin. by exists e.
  - intros (e & Hk & Hexp). exists (k, e). split; [done|].
    apply list_elem_of_In, filter_In. split; [|done].
    apply list_elem_of_In. by apply elem_of_map_to_list.
Qed.

(** A sweep deletes exactly the entries older than its bound. *)
Lemma lookup_sweep (now bound : Q) (m : gmap string entry) (k : string) :
  sweep now bound m !! k = kept now bound (m !! k).
Proof.
  unfold sweep. rewrite lookup_foldl_delete. unfold kept.
  case_bool_decide as Hin.
  - apply elem_of_expired_keys in Hin as (e & -> & ->). done.
  - destruct (m !! k) as [e|] eqn:Hk; [|done].
    destruct (Qgtb (now - timestamp e) bound) eqn:Hexp; [|done].
    exfalso. apply Hin, elem_of_expired_keys. by exists e.
Qed.

(** C8, amended.  [StockService._cleanup_cache] scans all four tiers and
    deletes exactly the entries older than the TTL of their tier, with no
    grace; [CacheCleanupService._perform_cleanup] scans the realtime and
    the historical tier only, deletes exactly the entries older than the
    TTL plus 60 seconds, and leaves the search and market tiers as they
    are. *)
Theorem sweepers_delete_exactly {G E : Type} `{Runtime G E}
    (w : world G E) (k : string) :
  let now := time_time (os (machine w)) in
  (forall t : cache_type,
     tier (cache (_cleanup_cache w)) t !! k
     = kept now (tier_ttl t) (tier (cache w) t !! k)) /\
  tier (cache (_perform_cleanup w)) realtime !! k
    = kept now (REALTIME_TTL + 60) (tier (cache w) realtime !! k) /\
  tier (cache (_perform_cleanup w)) historical !! k
    = kept now (HISTORICAL_TTL + 60) (tier (cache w) historical !! k) /\
  tier (cache (_perform_cleanup w)) search = tier (cache w) search /\
  tier (cache (_perform_cleanup w)) market = tier (cache w) market.
Proof.
  simpl. split; [|split; [|split]].
  - intros []; simpl; apply lookup_sweep.
  - apply lookup_sweep.
  - apply lookup_sweep.
  - done.
Qed.

Import Demo.

(** C8, as stated, fails on both sweepers.  At time 45 the quote stored at
    time 0 in the realtime tier is stale (45 > 30) but within the grace
    (45 <= 30 + 60), and [_cleanup_cache] deletes it; at time 1000 the
    entry stored at time 0 in the market tier is past TTL and grace
    (1000 > 60 + 60), and [_perform_cleanup] keeps it. *)
Lemma sweepers_counterexample :
  tier (cache (with_aapl 45)) realtime !! "details_AAPL"
    = Some (mk_entry aapl_quote 0) /\
  tier (cache (_cleanup_cache (with_aapl 45))) realtime !! "details_AAPL"
    = None /\
  tier (cache (with_aapl 1000)) market !! "market_summary"
    = Some (mk_entry aapl_quote 0) /\
  tier (cache (_perform_cleanup (with_aapl 1000))) market !! "market_summary"
    = Some (mk_entry aapl_quote 0).
Proof.
  split; [reflexivity|]. split; [|split; reflexivity].
  cbn [_cleanup_cache cache tier realtime_cache].
  rewrite lookup_sweep. reflexivity.
Qed.

End SweeperFacts.

(* ===================================================================== *)
(** * The public operations                                               *)
(* ===================================================================== *)

Module ServiceFacts.
Import StockService.

Section Operations.
Context {G E : Type} `{Runtime G E} `{Upstream G E}.

Local Abbreviation world := (world G E).

(** The global limiter allows 25 calls: its deque is never empty when it
    is found full, so waiting on it never raises. *)
Lemma yahoo_wait_returns (s : sys G E) : snd (yahoo_wait s) = Ok tt.
Proof.
  unfold yahoo_wait, RateLimiter.wait_if_needed. cbn -[Z.of_nat Z.leb].
  destruct (25 <=? _)%Z eqn:Hfull; [|done].
  apply Z.leb_le in Hfull.
  destruct (RateLimiter.prune _ _ _) as [|t0 rest]; [simpl in Hfull; lia|].
  by destruct (random_uniform _ _ _).
Qed.

Lemma after_wait_cache (w : world) : cache (after_wait w) = cache w.
Proof.
  unfold after_wait, on_machine. by destruct (yahoo_wait (machine w)).
Qed.

Lemma rate_limit_runs {A} (func : world -> world * result A) (w : world) :
  rate_limit func w = func (after_wait w).
Proof.
  unfold rate_limit, after_wait, on_machine.
  pose proof (yahoo_wait_returns (machine w)) as Hret.
  destruct (yahoo_wait (machine w)) as [s' r]; simpl in *. by subst r.
Qed.

Lemma retry_first_try {A} (remaining k : nat)
    (func : world -> world * result A) (w w' : world) (a : A) :
  func w = (w', Ok a) -> retry remaining k func w = (w', Ok a).
Proof. intros Hf. destruct remaining; simpl; by rewrite Hf. Qed.

Lemma on_exception_first_try {A} (max_tries : nat)
    (func : world -> world * result A) (w w' : world) (a : A) :
  func w = (w', Ok a) -> on_exception max_tries func w = (w', Ok a).
Proof. apply retry_first_try. Qed.


(** C7, amended.  For a fixed symbol the mock details of two invocations,
    in whatever state of the process, agree on every item but
    ["timestamp"], which is the wall clock of the invocation, so they are
    identical when the clock reads the same; for two distinct symbols the
    mock details differ. *)
Theorem mock_details_determinism (symbol : string) (w1 w2 : world) :
  without_timestamp (snd (_get_mock_stock_details symbol w1))
    = without_timestamp (snd (_get_mock_stock_details symbol w2)) /\
  (strftime_now (os (machine w1)) = strftime_now (os (machine w2)) ->
   snd (_get_mock_stock_details symbol w1)
     = snd (_get_mock_stock_details symbol w2)) /\
  (forall symbol' : string,
     symbol <> symbol' ->
     snd (_get_mock_stock_details symbol w1)
       <> snd (_get_mock_stock_details symbol' w2)).
Proof.
  split; [|split].
  - unfold _get_mock_stock_details.
    repeat match goal with
           | |- context [let '(_, _) := ?t in _] => destruct t
           end.
    reflexivity.
  - intros Hclock. unfold _get_mock_stock_details. rewrite Hclock.
    repeat match goal with
           | |- context [let '(_, _) := ?t in _] => destruct t
           end.
    reflexivity.
  - intros symbol' Hne Heq. apply Hne.
    assert (Hsym : forall s w,
      data_symbol (snd (_get_mock_stock_details s w)) = Some (VStr s)).
    { intros s w. unfold _get_mock_stock_details.
      repeat match goal with
             | |- context [let '(_, _) := ?t in _] => destruct t
             end.
      reflexivity. }
    pose proof (Hsym symbol w1) as H1. rewrite Heq, Hsym in H1.
    by injection H1.
Qed.


Lemma details_body_returns (symbol : string) (w : world) :
  exists w' v, get_stock_details_body symbol w = (w', Ok v).
Proof.
  unfold get_stock_details_body.
  destruct (_get_cached_or_execute _ _ _ _ _) as [w1 [v|e]]; [by eauto|].
  destruct (_get_mock_stock_details _ _) as [w2 v]. by eauto.
Qed.

Lemma get_stock_details_unfold (symbol : string) (w : world) :
  get_stock_details symbol w = get_stock_details_body symbol (after_wait w).
Proof.
  unfold get_stock_details. rewrite rate_limit_runs.
  destruct (details_body_returns symbol (after_wait w)) as (w' & v & Hbody).
  rewrite Hbody. by apply on_exception_first_try.
Qed.

Lemma historical_body_returns (symbol timeframe : string) (w : world) :
  exists w' v, get_historical_data_body symbol timeframe w = (w', Ok v).
Proof.
  unfold get_historical_data_body.
  destruct (_get_cached_or_execute _ _ _ _ _) as [w1 [v|e]]; [by eauto|].
  destruct (_get_mock_historical_data _ _ _) as [w2 v]. by eauto.
Qed.

Lemma get_historical_data_unfold (symbol timeframe : string) (w : world) :
  get_historical_data symbol timeframe w
  = get_historical_data_body symbol timeframe (after_wait w).
Proof.
  unfold get_historical_data. rewrite rate_limit_runs.
  destruct (historical_body_returns symbol timeframe (after_wait w))
    as (w' & v & Hbody).
  rewrite Hbody. by apply on_exception_first_try.
Qed.

(** C4.  [get_stock_details] and [get_historical_data] always return a
    value, and whenever the cached-or-fetch path raises (the fetch failed
    and the tier has no entry under the key) the value is the mock of the
    upper-cased symbol (and timeframe). *)
Theorem unavailable_data_falls_back_to_mock (symbol timeframe : string)
    (w : world) :
  (exists w' v, get_stock_details symbol w = (w', Ok v)) /\
  (exists w' v, get_historical_data symbol timeframe w = (w', Ok v)) /\
  (forall w1 e,
     _get_cached_or_execute realtime ("details_" +:+ upper symbol)
       (details_fetch_data (upper symbol)) None (after_wait w)
       = (w1, Raise e) ->
     get_stock_details symbol w
       = (fst (_get_mock_stock_details (upper symbol) w1),
          Ok (snd (_get_mock_stock_details (upper symbol) w1)))) /\
  (forall w1 e,
     _get_cached_or_execute historical
       ("historical_" +:+ upper symbol +:+ "_" +:+ timeframe)
       (historical_fetch_data (upper symbol) timeframe) None (after_wait w)
       = (w1, Raise e) ->
     get_historical_data symbol timeframe w
       = (fst (_get_mock_historical_data (upper symbol) timeframe w1),
          Ok (snd (_get_mock_historical_data (upper symbol) timeframe w1)))).
Proof.
  split; [|split; [|split]].
  - rewrite get_stock_details_unfold. apply details_body_returns.
  - rewrite get_historical_data_unfold. apply historical_body_returns.
  - intros w1 e Hraise. rewrite get_stock_details_unfold.
    unfold get_stock_details_body. rewrite Hraise.
    by destruct (_get_mock_stock_details _ _).
  - intros w1 e Hraise. rewrite get_historical_data_unfold.
    unfold get_historical_data_body. rewrite Hraise.
    by destruct (_get_mock_historical_data _ _ _).
Qed.

End Operations.

Import Demo.


(** C7, as stated, fails: a second invocation for the same symbol one
    second after the first returns another ["timestamp"]. *)
Lemma mock_details_clock_example :
  snd (_get_mock_stock_details "X" (boot 0))
    <> snd (_get_mock_stock_details "X"
              (later 1 (fst (_get_mock_stock_details "X" (boot 0))))).
Proof. vm_compute. discriminate. Qed.

Lemma mock_details_determinism_witness :
  snd (_get_mock_stock_details "X" (boot 0))
    = snd (_get_mock_stock_details "X"
             (later (1 # 2) (fst (_get_mock_stock_details "X" (boot 0))))) /\
  snd (_get_mock_stock_details "X" (boot 0))
    <> snd (_get_mock_stock_details "Y" (boot 0)).
Proof.
  pose proof (mock_details_determinism "X" (boot 0)
    (later (1 # 2) (fst (_get_mock_stock_details "X" (boot 0)))))
    as (_ & Hsame & _).
  pose proof (mock_details_determinism "X" (boot 0) (boot 0))
    as (_ & _ & Hdiff).
  split.
  - apply Hsame. reflexivity.
  - apply Hdiff. discriminate.
Defined.

Lemma unavailable_data_falls_back_to_mock_witness :
  get_stock_details "bad" (boot 0)
    = (fst (_get_mock_stock_details "BAD" (after_wait (boot 0))),
       Ok (snd (_get_mock_stock_details "BAD" (after_wait (boot 0))))) /\
  get_historical_data "bad" "1w" (boot 0)
    = (fst (_get_mock_historical_data "BAD" "1w" (after_wait (boot 0))),
       Ok (snd (_get_mock_historical_data "BAD" "1w" (after_wait (boot 0))))).
Proof.
  pose proof (unavailable_data_falls_back_to_mock "bad" "1w" (boot 0))
    as (_ & _ & Hdetails & Hhistorical).
  split.
  - apply (Hdetails (after_wait (boot 0)) (UpstreamError "no data")).
    reflexivity.
  - apply (Hhistorical (after_wait (boot 0)) (UpstreamError "no data")).
    reflexivity.
Defined.

Section Sources.
Context {G E : Type} `{Runtime G E} `{Upstream G E}.

Local Abbreviation world := (world G E).

Lemma cache_sourced_insert (c : cache_store) (t : cache_type) (k : string)
    (v : value) (now : Q) :
  cache_sourced c -> source_in written_sources v = true ->
  cache_sourced (set_tier c t (<[k := mk_entry v now]> (tier c t))).
Proof.
  intros Hc Hv t' k' e Hns Hlook.
  destruct (decide (t' = t)) as [->|Hne].
  - assert (Htier : tier (set_tier c t (<[k := mk_entry v now]> (tier c t))) t
                    = <[k := mk_entry v now]> (tier c t)) by by destruct t.
    rewrite Htier in Hlook.
    destruct (decide (k' = k)) as [->|Hk].
    + rewrite lookup_insert_eq in Hlook. by injection Hlook as <-.
    + rewrite lookup_insert_ne in Hlook by done. by eapply Hc.
  - assert (Htier : tier (set_tier c t (<[k := mk_entry v now]> (tier c t))) t'
                    = tier c t') by by destruct t, t'.
    rewrite Htier in Hlook. by eapply Hc.
Qed.

(** Read-through caching with a fetch function that delivers sourced
    values, falling back to a mock when it raises. *)
Lemma cached_or_mock_sourced (t : cache_type) (key : string)
    (fetch_func : world -> world * result value)
    (mock : world -> world * value) (w : world) :
  t <> search ->
  cache_sourced (cache w) ->
  (cache_sourced (cache (fst (fetch_func w))) /\
   forall v, snd (fetch_func w) = Ok v -> source_in written_sources v = true) ->
  (forall w1, cache (fst (mock w1)) = cache w1 /\
              source_in written_sources (snd (mock w1)) = true) ->
  sourced
    (match _get_cached_or_execute t key fetch_func None w with
     | (w1, Ok v) => (w1, Ok v)
     | (w1, Raise e) => let '(w2, v) := mock w1 in (w2, Ok v)
     end).
Proof.
  intros Hns Hc [Hfc Hfv] Hmock. unfold _get_cached_or_execute.
  assert (Hexec : sourced
    (match
       match fetch_func w with
       | (w1, Ok result) =>
           (mk_world
              (set_tier (cache w1) t
                 (<[key := mk_entry result (time_time (os (machine w)))]>
                    (tier (cache w1) t)))
              (machine w1), Ok result)
       | (w1, Raise e) =>
           match tier (cache w1) t !! key with
           | Some old => (w1, Ok (data old))
           | None => (w1, Raise e)
           end
       end
     with
     | (w1, Ok v) => (w1, Ok v)
     | (w1, Raise e) => let '(w2, v) := mock w1 in (w2, Ok v)
     end)).
  { destruct (fetch_func w) as [w1 [r|e]]; simpl in *.
    - split; simpl; [|by eauto]. apply cache_sourced_insert; by eauto.
    - destruct (tier (cache w1) t !! key) as [old|] eqn:Hold.
      + split; simpl; [done|]. exists (data old). split; [done|].
        by eapply Hfc.
      + destruct (Hmock w1) as [Hmc Hmv].
        destruct (mock w1) as [w2 v]; simpl in *.
        split; simpl; [by rewrite Hmc|by eauto]. }
  destruct (tier (cache w) t !! key) as [hit|] eqn:Hhit; [|done].
  destruct (Qltb _ _); [|done].
  split; simpl; [done|]. exists (data hit). split; [done|]. by eapply Hc.
Qed.

Lemma on_machine_cache {A} (f : sys G E -> sys G E * A) (w : world) :
  cache (fst (on_machine f w)) = cache w.
Proof. unfold on_machine. by destruct (f (machine w)). Qed.

Lemma mock_details_sourced (symbol : string) (w : world) :
  cache (fst (_get_mock_stock_details symbol w)) = cache w /\
  source_in written_sources (snd (_get_mock_stock_details symbol w)) = true.
Proof.
  unfold _get_mock_stock_details.
  repeat match goal with
         | |- context [let '(_, _) := ?t in _] => destruct t
         end.
  split; reflexivity.
Qed.

Lemma mock_historical_sourced (symbol timeframe : string) (w : world) :
  cache (fst (_get_mock_historical_data symbol timeframe w)) = cache w /\
  source_in written_sources
    (snd (_get_mock_historical_data symbol timeframe w)) = true.
Proof.
  unfold _get_mock_historical_data.
  repeat match goal with
         | |- context [let '(_, _) := ?t in _] => destruct t
         end.
  split; reflexivity.
Qed.

Lemma get_stock_details_sourced (symbol : string) (w : world) :
  cache_sourced (cache w) -> sourced (get_stock_details symbol w).
Proof.
  intros Hc. rewrite get_stock_details_unfold. unfold get_stock_details_body.
  apply (cached_or_mock_sourced realtime _ _
           (_get_mock_stock_details (upper symbol))).
  - done.
  - by rewrite after_wait_cache.
  - assert (Hc' : cache_sourced (cache (after_wait w)))
      by by rewrite after_wait_cache.
    unfold details_fetch_data.
    pose proof (on_machine_cache (yf_quote (upper symbol)) (after_wait w))
      as Hsame.
    destruct (on_machine _ _) as [w1 [q|e]]; simpl in *.
    + rewrite Hsame. split; [done|]. by intros v [= <-].
    + rewrite Hsame. split; [done|]. by intros v [=].
  - intros w1. apply mock_details_sourced.
Qed.

Lemma get_historical_data_sourced (symbol timeframe : string) (w : world) :
  cache_sourced (cache w) -> sourced (get_historical_data symbol timeframe w).
Proof.
  intros Hc. rewrite get_historical_data_unfold.
  unfold get_historical_data_body.
  apply (cached_or_mock_sourced historical _ _
           (_get_mock_historical_data (upper symbol) timeframe)).
  - done.
  - by rewrite after_wait_cache.
  - assert (Hc' : cache_sourced (cache (after_wait w)))
      by by rewrite after_wait_cache.
    unfold historical_fetch_data.
    destruct (timeframe_params timeframe) as [[period interval] date_format].
    pose proof (on_machine_cache
                  (yf_history (upper symbol) period interval date_format)
                  (after_wait w)) as Hsame.
    destruct (on_machine _ _) as [w1 [s|e]]; simpl in *.
    + rewrite Hsame. split; [done|]. by intros v [= <-].
    + rewrite Hsame. split; [done|]. by intros v [=].
  - intros w1. apply mock_historical_sourced.
Qed.

Lemma decorated_sourced (max_tries : nat)
    (body : world -> world * result value) (w : world) :
  sourced (body (after_wait w)) ->
  sourced (rate_limit (on_exception max_tries body) w).
Proof.
  intros Hs. rewrite rate_limit_runs.
  destruct (body (after_wait w)) as [w' r] eqn:Hbody.
  destruct Hs as [Hc (v & Hv & Hsrc)]; simpl in *. subst r.
  rewrite (on_exception_first_try max_tries body _ _ _ Hbody).
  split; simpl; [done|by eauto].
Qed.

Lemma get_market_summary_sourced (w : world) :
  cache_sourced (cache w) -> sourced (get_market_summary w).
Proof.
  intros Hc. apply decorated_sourced.
  apply (cached_or_mock_sourced market _ _
           (fun w1 => (w1, _get_mock_market_summary w1))).
  - done.
  - by rewrite after_wait_cache.
  - assert (Hc' : cache_sourced (cache (after_wait w)))
      by by rewrite after_wait_cache.
    unfold market_fetch_data.
    pose proof (on_machine_cache yf_market (after_wait w)) as Hsame.
    destruct (on_machine _ _) as [w1 [[[indices sectors] status]|e]];
      simpl in *.
    + rewrite Hsame. split; [done|]. by intros v [= <-].
    + rewrite Hsame. split; [done|]. by intros v [=].
  - intros w1. split; reflexivity.
Qed.

Lemma get_market_movers_sourced (limit : Z) (w : world) :
  cache_sourced (cache w) -> sourced (get_market_movers limit w).
Proof.
  intros Hc. apply decorated_sourced.
  apply (cached_or_mock_sourced market _ _
           (fun w1 => (w1, _get_mock_market_movers w1))).
  - done.
  - by rewrite after_wait_cache.
  - assert (Hc' : cache_sourced (cache (after_wait w)))
      by by rewrite after_wait_cache.
    unfold movers_fetch_data.
    pose proof (on_machine_cache (yf_movers (Z.min limit 5)) (after_wait w))
      as Hsame.
    destruct (on_machine _ _) as [w1 [[gainers losers]|e]]; simpl in *.
    + rewrite Hsame. split; [done|]. by intros v [= <-].
    + rewrite Hsame. split; [done|]. by intros v [=].
  - intros w1. split; reflexivity.
Qed.

Lemma pace_cache (a b : Q) (w : world) : cache (pace a b w) = cache w.
Proof. unfold pace. by destruct (random_uniform a b (rng (machine w))). Qed.

Lemma watched_loop_sourced (symbols : list string) (watched : list value)
    (w : world) :
  cache_sourced (cache w) ->
  Forall (fun v => source_in written_sources v = true) watched ->
  cache_sourced (cache (fst (watched_loop symbols watched w))) /\
  Forall (fun v => source_in written_sources v = true)
         (snd (watched_loop symbols watched w)).
Proof.
  revert watched w.
  induction symbols as [|symbol rest IH]; intros watched w Hc Hw; [done|].
  cbn [watched_loop].
  destruct (get_stock_details_sourced symbol w Hc) as [Hc1 (v & Hv & Hsrc)].
  destruct (get_stock_details symbol w) as [w1 r]; simpl in *. subst r.
  apply IH.
  - by rewrite pace_cache.
  - destruct (truthy v); [|done].
    apply Forall_app. split; [done|]. by apply Forall_singleton.
Qed.

Lemma watched_fetch_data_sourced (limit : Z) (w : world) :
  cache_sourced (cache w) ->
  cache_sourced (cache (fst (watched_fetch_data limit w))) /\
  forall v, snd (watched_fetch_data limit w) = Ok v ->
            source_in written_sources v = true.
Proof.
  intros Hc. unfold watched_fetch_data.
  destruct (watched_loop_sourced
              (py_slice_to ["AAPL"; "MSFT"; "GOOGL"; "AMZN"; "TSLA"] limit)
              [] w Hc (List.Forall_nil _)) as [Hc1 Hw].
  destruct (watched_loop _ _ _) as [w1 watched]; simpl in *.
  destruct watched as [|first rest].
  - split; [done|]. by intros v [= <-].
  - apply Forall_cons in Hw as [Hfirst _].
    destruct first as [| | | | |d]; try discriminate Hfirst.
    unfold source_in in Hfirst. simpl in Hfirst.
    destruct (dict_get "dataSource" d) as [src|]; [|discriminate Hfirst].
    split; [done|]. intros v [= <-].
    destruct src; try discriminate Hfirst. exact Hfirst.
Qed.

Lemma get_most_watched_sourced (limit : Z) (w : world) :
  cache_sourced (cache w) -> sourced (get_most_watched limit w).
Proof.
  intros Hc. unfold get_most_watched. rewrite rate_limit_runs.
  apply (cached_or_mock_sourced market _ _
           (fun w1 => (w1, _get_mock_most_watched w1))).
  - done.
  - by rewrite after_wait_cache.
  - apply watched_fetch_data_sourced. by rewrite after_wait_cache.
  - intros w1. split; reflexivity.
Qed.

End Sources.

Section Batch.
Context {G E : Type} `{Runtime G E} `{Upstream G E}.

Local Abbreviation world := (world G E).

(** The three ways [get_stock_details] comes to its value: from an entry
    of the cache (fresh, or stale after a failed fetch), from a successful
    fetch that is then stored, or from the mock generator after a failed
    fetch with nothing cached. *)
Lemma get_stock_details_cases (symbol : string) (w : world) :
  exists w' v,
    get_stock_details symbol w = (w', Ok v) /\
    ((cache w' = cache w /\
      exists old,
        realtime_cache (cache w) !! ("details_" +:+ upper symbol) = Some old /\
        v = data old) \/
     (data_source v = Some (VStr "yfinance") /\
      (exists s s' q, yf_quote (upper symbol) s = (s', Ok q)) /\
      exists now,
        cache w' = set_tier (cache w) realtime
                     (<["details_" +:+ upper symbol := mk_entry v now]>
                        (realtime_cache (cache w)))) \/
     (cache w' = cache w /\
      realtime_cache (cache w) !! ("details_" +:+ upper symbol) = None /\
      (exists s s' e, yf_quote (upper symbol) s = (s', Raise e)) /\
      exists w1, v = snd (_get_mock_stock_details (upper symbol) w1))).
Proof.
  rewrite get_stock_details_unfold.
  unfold get_stock_details_body, _get_cached_or_execute.
  rewrite after_wait_cache. cbn [tier].
  set (key := "details_" +:+ upper symbol).
  assert (Hexec : exists w' v,
    match
      match details_fetch_data (upper symbol) (after_wait w) with
      | (w1, Ok result) =>
          (mk_world
             (set_tier (cache w1) realtime
                (<[key := mk_entry result
                            (time_time (os (machine (after_wait w))))]>
                   (tier (cache w1) realtime)))
             (machine w1), Ok result)
      | (w1, Raise e) =>
          match tier (cache w1) realtime !! key with
          | Some old => (w1, Ok (data old))
          | None => (w1, Raise e)
          end
      end
    with
    | (w1, Ok v) => (w1, Ok v)
    | (w1, Raise _) =>
        let '(w2, v) := _get_mock_stock_details (upper symbol) w1 in
        (w2, Ok v)
    end = (w', Ok v) /\
    ((cache w' = cache w /\
      exists old, realtime_cache (cache w) !! key = Some old /\ v = data old) \/
     (data_source v = Some (VStr "yfinance") /\
      (exists s s' q, yf_quote (upper symbol) s = (s', Ok q)) /\
      exists now,
        cache w' = set_tier (cache w) realtime
                     (<[key := mk_entry v now]> (realtime_cache (cache w)))) \/
     (cache w' = cache w /\
      realtime_cache (cache w) !! key = None /\
      (exists s s' e, yf_quote (upper symbol) s = (s', Raise e)) /\
      exists w1, v = snd (_get_mock_stock_details (upper symbol) w1)))).
  { unfold details_fetch_data, on_machine.
    destruct (yf_quote (upper symbol) (machine (after_wait w)))
      as [s' [q|e]] eqn:Hq; cbn [cache machine tier];
      rewrite after_wait_cache.
    - eexists _, _. split; [reflexivity|]. right. left.
      split; [reflexivity|]. split; [by eauto|]. by eauto.
    - destruct (realtime_cache (cache w) !! key) as [old|] eqn:Hold.
      + eexists _, _. split; [reflexivity|]. left.
        split; [done|]. by eauto.
      + pose proof (mock_details_sourced (upper symbol)
                      (mk_world (cache w) s')) as [Hmc _].
        destruct (_get_mock_stock_details (upper symbol)
                    (mk_world (cache w) s')) as [w2 v] eqn:Hmock.
        eexists _, _. split; [reflexivity|]. right. right.
        split; [exact Hmc|]. split; [done|]. split; [by eauto|].
        exists (mk_world (cache w) s'). by rewrite Hmock. }
  destruct (realtime_cache (cache w) !! key) as [hit|] eqn:Hhit;
    [|exact Hexec].
  destruct (Qltb _ _); [|exact Hexec].
  eexists _, _. split; [reflexivity|]. left.
  split; [apply after_wait_cache|]. by eauto.
Qed.

(** One turn of the inner loop always stores a value under the symbol. *)
Lemma process_symbol_cases (symbol : string) (w : world)
    (results : gmap string value) :
  exists w' v,
    process_symbol symbol (w, results) = (w', <[symbol := v]> results) /\
    ((cache w' = cache w /\
      exists old,
        realtime_cache (cache w) !! ("details_" +:+ upper symbol) = Some old /\
        v = data old) \/
     (data_source v = Some (VStr "yfinance") /\
      (exists s s' q, yf_quote (upper symbol) s = (s', Ok q)) /\
      exists now,
        cache w' = set_tier (cache w) realtime
                     (<["details_" +:+ upper symbol := mk_entry v now]>
                        (realtime_cache (cache w)))) \/
     (cache w' = cache w /\
      realtime_cache (cache w) !! ("details_" +:+ upper symbol) = None /\
      (exists s s' e, yf_quote (upper symbol) s = (s', Raise e)) /\
      exists w1, v = snd (_get_mock_stock_details (upper symbol) w1))).
Proof.
  unfold process_symbol.
  destruct (get_stock_details_cases symbol (pace (5 # 10) 1 w))
    as (w' & v & Hget & Hcases).
  rewrite Hget. rewrite pace_cache in Hcases. by eauto.
Qed.

(** A property of the cache and of the results that every turn of the
    inner loop keeps is kept by the whole of the two nested loops. *)
Lemma batch_loops_keep (I : cache_store -> gmap string value -> Prop)
    (symbols_to_fetch : list string) :
  (forall symbol w results,
     symbol ∈ symbols_to_fetch ->
     I (cache w) results ->
     I (cache (fst (process_symbol symbol (w, results))))
       (snd (process_symbol symbol (w, results)))) ->
  forall indices w results,
    I (cache w) results ->
    I (cache (fst (foldl (fun st i => process_batch symbols_to_fetch i st)
                         (w, results) indices)))
      (snd (foldl (fun st i => process_batch symbols_to_fetch i st)
                  (w, results) indices)).
Proof.
  intros Hstep.
  assert (Hinner : forall batch w results,
    batch ⊆ symbols_to_fetch ->
    I (cache w) results ->
    I (cache (fst (foldl (fun st symbol => process_symbol symbol st)
                         (w, results) batch)))
      (snd (foldl (fun st symbol => process_symbol symbol st)
                  (w, results) batch))).
  { induction batch as [|symbol batch IH]; intros w results Hsub HI; [done|].
    cbn [foldl].
    destruct (process_symbol symbol (w, results)) as [w1 results1] eqn:Hp.
    apply IH; [set_solver|].
    pose proof (Hstep symbol w results ltac:(set_solver) HI) as HI1.
    by rewrite Hp in HI1. }
  induction indices as [|i indices IH]; intros w results HI; [done|].
  cbn [foldl].
  destruct (process_batch symbols_to_fetch i (w, results))
    as [w1 results1] eqn:Hb.
  apply IH. unfold process_batch in Hb.
  pose proof (Hinner (take 3 (drop i symbols_to_fetch)) w results) as HI1.
  destruct (foldl _ (w, results) (take 3 (drop i symbols_to_fetch)))
    as [w2 results2].
  assert (Hsub : take 3 (drop i symbols_to_fetch) ⊆ symbols_to_fetch).
  { etrans; [apply subseteq_take|apply subseteq_drop]. }
  specialize (HI1 Hsub HI). simpl in HI1.
  destruct (_ <? _); injection Hb as <- <-; [|done].
  by rewrite pace_cache.
Qed.

Lemma dom_process_symbol (symbol : string) (w : world)
    (results : gmap string value) :
  dom (snd (process_symbol symbol (w, results))) = {[symbol]} ∪ dom results.
Proof.
  destruct (process_symbol_cases symbol w results) as (w' & v & -> & _).
  apply dom_insert_L.
Qed.

(** Every symbol still to fetch gets a result, and no other key is
    added. *)
Lemma dom_batch_loops (symbols_to_fetch : list string) (w : world)
    (results : gmap string value) :
  dom (snd (foldl (fun st i => process_batch symbols_to_fetch i st)
                  (w, results)
                  (py_range_step (length symbols_to_fetch) 3)))
  = dom results ∪ list_to_set symbols_to_fetch.
Proof.
  apply set_eq. intros x. split.
  - assert (Hsub :
      dom (snd (foldl (fun st i => process_batch symbols_to_fetch i st)
                      (w, results)
                      (py_range_step (length symbols_to_fetch) 3)))
      ⊆ (dom results ∪ list_to_set symbols_to_fetch : gset string)).
    { apply (batch_loops_keep
               (fun _ (r : gmap string value) =>
                  dom r ⊆ (dom results ∪ list_to_set symbols_to_fetch
                           : gset string))
               symbols_to_fetch); [|set_solver].
      intros symbol w0 r Hin Hsub. rewrite dom_process_symbol.
      apply union_least; [|done].
      apply singleton_subseteq_l, elem_of_union_r.
      by apply elem_of_list_to_set. }
    intros Hx. by apply Hsub.
  - assert (Hkeep : forall y indices w0 r,
      y ∈ dom r ->
      y ∈ dom (snd (foldl (fun st i => process_batch symbols_to_fetch i st)
                          (w0, r) indices))).
    { intros y indices w0 r Hy.
      apply (batch_loops_keep
               (fun _ (r' : gmap string value) => y ∈ dom r')
               symbols_to_fetch); [|done].
      intros symbol w1 r1 _ Hy1. rewrite dom_process_symbol. set_solver. }
    intros [Hx|Hx]%elem_of_union; [by apply Hkeep|].
    apply elem_of_list_to_set, list_elem_of_lookup in Hx as [k Hk].
    pose proof (lookup_lt_Some _ _ _ Hk) as Hlt.
    assert (Hi : (k / 3) * 3 ∈ py_range_step (length symbols_to_fetch) 3).
    { unfold py_range_step. apply list_elem_of_fmap. exists (k / 3).
      split; [done|]. apply elem_of_seq. cbn [Nat.sub].
      pose proof (Nat.div_mod_eq k 3).
      pose proof (Nat.mod_upper_bound k 3).
      pose proof (Nat.div_mod_eq (length symbols_to_fetch + 2) 3).
      pose proof (Nat.mod_upper_bound (length symbols_to_fetch + 2) 3).
      lia. }
    assert (Hbatch : x ∈ take 3 (drop ((k / 3) * 3) symbols_to_fetch)).
    { apply elem_of_take. exists (k mod 3). split.
      - rewrite lookup_drop. rewrite <- Hk. f_equal.
        pose proof (Nat.div_mod_eq k 3). lia.
      - apply Nat.mod_upper_bound. lia. }
    revert Hi Hbatch. generalize ((k / 3) * 3). intros i.
    generalize (py_range_step (length symbols_to_fetch) 3). intros indices.
    revert w results. induction indices as [|j indices IH];
      intros w results Hi Hbatch; [by apply elem_of_nil in Hi|].
    cbn [foldl].
    destruct (process_batch symbols_to_fetch j (w, results))
      as [w1 results1] eqn:Hb.
    apply elem_of_cons in Hi as [->|Hi]; [|by apply IH].
    apply Hkeep. unfold process_batch in Hb.
    assert (Hinner : forall batch w0 r,
      x ∈ batch \/ x ∈ dom r ->
      x ∈ dom (snd (foldl (fun st symbol => process_symbol symbol st)
                          (w0, r) batch))).
    { induction batch as [|symbol batch IHb]; intros w0 r Hor.
      - destruct Hor as [Hnil|Hdom]; [by apply elem_of_nil in Hnil|done].
      - cbn [foldl].
        pose proof (dom_process_symbol symbol w0 r) as Hdom.
        destruct (process_symbol symbol (w0, r)) as [w2 r2].
        apply IHb. simpl in Hdom. rewrite Hdom.
        destruct Hor as [[->|Hrest]%elem_of_cons|Hin].
        + right. apply elem_of_union_l. by apply elem_of_singleton.
        + by left.
        + right. by apply elem_of_union_r. }
    specialize (Hinner (take 3 (drop j symbols_to_fetch)) w results
                  (or_introl Hbatch)).
    destruct (foldl _ (w, results) (take 3 (drop j symbols_to_fetch)))
      as [w2 results2].
    simpl in Hinner. by destruct (_ <? _); injection Hb as <- <-.
Qed.

(** The first pass: a symbol has a result exactly when it is requested
    and has a fresh entry under its own name. *)
Lemma lookup_batch_precheck (now : Q) (c : cache_store)
    (symbols : list string) (x : string) :
  batch_precheck now c symbols !! x
  = if bool_decide (x ∈ symbols) then cached_fresh now c x else None.
Proof.
  unfold batch_precheck.
  assert (Hgen : forall acc : gmap string value,
    foldl (fun results symbol =>
             match cached_fresh now c symbol with
             | Some d => <[symbol := d]> results
             | None => results
             end) acc symbols !! x
    = if bool_decide (x ∈ symbols)
      then match cached_fresh now c x with
           | Some d => Some d
           | None => acc !! x
           end
      else acc !! x).
  { induction symbols as [|symbol symbols IH]; intros acc; cbn [foldl].
    - case_bool_decide as Hin; [by apply elem_of_nil in Hin|done].
    - rewrite IH.
      destruct (decide (x = symbol)) as [->|Hne].
      + rewrite (bool_decide_eq_true_2 (symbol ∈ symbol :: symbols))
          by apply list_elem_of_here.
        destruct (cached_fresh now c symbol) as [d|] eqn:Hc.
        * case_bool_decide; [done|]. apply lookup_insert_eq.
        * by case_bool_decide.
      + assert (Hacc :
          match cached_fresh now c symbol with
          | Some d => <[symbol := d]> acc
          | None => acc
          end !! x = acc !! x).
        { destruct (cached_fresh now c symbol); [|done].
          by apply lookup_insert_ne. }
        rewrite Hacc.
        case_bool_decide as Hin; case_bool_decide as Hin'; try done.
        * exfalso. apply Hin'. by apply list_elem_of_further.
        * exfalso. apply elem_of_cons in Hin' as [?|?]; done. }
  rewrite Hgen, lookup_empty.
  case_bool_decide; [|done]. by destruct (cached_fresh now c x).
Qed.

Lemma details_key_inj (a b : string) :
  "details_" +:+ a = "details_" +:+ b -> a = b.
Proof. intros Heq. simpl in Heq. by injection Heq. Qed.

(** A symbol whose upstream always fails and that has nothing cached ends
    with its mock, whatever else is resolved around it. *)
Lemma batch_keeps_failing (bad : string) (symbols_to_fetch : list string)
    (indices : list nat) (w : world) (results : gmap string value) :
  upstream_always_fails (upper bad) ->
  realtime_cache (cache w) !! ("details_" +:+ upper bad) = None ->
  results !! bad = None ->
  let st := foldl (fun st i => process_batch symbols_to_fetch i st)
                  (w, results) indices in
  snd st !! bad = None \/
  exists w1, snd st !! bad
             = Some (snd (_get_mock_stock_details (upper bad) w1)).
Proof.
  intros Hfails Hnone Hres.
  apply (batch_loops_keep
           (fun c (r : gmap string value) =>
              realtime_cache c !! ("details_" +:+ upper bad) = None /\
              (r !! bad = None \/
               exists w1, r !! bad
                 = Some (snd (_get_mock_stock_details (upper bad) w1))))
           symbols_to_fetch); [|by auto].
  clear w results Hnone Hres.
  intros symbol w results _ [Hnone Hres].
  destruct (process_symbol_cases symbol w results)
    as (w' & v & -> & Hcases). cbn [fst snd].
  destruct Hcases as [(Hc & old & Hold & ->)
                     |[(Hv & (s & s' & q & Hq) & now & Hc)
                      |(Hc & Hmiss & _ & w1 & ->)]].
  - rewrite Hc. split; [done|].
    destruct (decide (symbol = bad)) as [->|Hne]; [congruence|].
    by rewrite lookup_insert_ne.
  - assert (Hup : upper symbol <> upper bad).
    { intros Heq. rewrite Heq in Hq.
      destruct (Hfails s) as (s'' & e & Hraise). congruence. }
    assert (Hne : symbol <> bad) by (intros ->; done).
    rewrite Hc. cbn [set_tier realtime_cache].
    rewrite lookup_insert_ne
      by (intros Hk; by apply details_key_inj in Hk).
    split; [done|]. by rewrite lookup_insert_ne.
  - rewrite Hc. split; [done|].
    destruct (decide (symbol = bad)) as [->|Hne].
    + right. exists w1. apply lookup_insert_eq.
    + by rewrite lookup_insert_ne.
Qed.

Lemma realtime_live_insert (c : cache_store) (k : string) (v : value)
    (now : Q) :
  realtime_live c -> data_source v = Some (VStr "yfinance") ->
  realtime_live (set_tier c realtime (<[k := mk_entry v now]> (realtime_cache c))).
Proof.
  intros Hc Hv k' e. cbn [set_tier realtime_cache].
  destruct (decide (k' = k)) as [->|Hne].
  - rewrite lookup_insert_eq. by intros [= <-].
  - rewrite lookup_insert_ne by done. apply Hc.
Qed.

(** A symbol whose upstream always succeeds ends with a quote fetched from
    upstream, whatever fails around it. *)
Lemma batch_keeps_live (good : string) (symbols_to_fetch : list string)
    (indices : list nat) (w : world) (results : gmap string value) :
  upstream_always_succeeds (upper good) ->
  realtime_live (cache w) ->
  (results !! good = None \/
   exists v, results !! good = Some v /\
             data_source v = Some (VStr "yfinance")) ->
  let st := foldl (fun st i => process_batch symbols_to_fetch i st)
                  (w, results) indices in
  snd st !! good = None \/
  exists v, snd st !! good = Some v /\
            data_source v = Some (VStr "yfinance").
Proof.
  intros Hsucceeds Hlive Hres.
  apply (batch_loops_keep
           (fun c (r : gmap string value) =>
              realtime_live c /\
              (r !! good = None \/
               exists v, r !! good = Some v /\
                         data_source v = Some (VStr "yfinance")))
           symbols_to_fetch); [|by auto].
  clear w results Hlive Hres.
  intros symbol w results _ [Hlive Hres].
  destruct (process_symbol_cases symbol w results)
    as (w' & v & -> & Hcases). cbn [fst snd].
  destruct Hcases as [(Hc & old & Hold & ->)
                     |[(Hv & _ & now & Hc)
                      |(Hc & _ & (s & s' & e & Hraise) & w1 & ->)]].
  - rewrite Hc. split; [done|].
    destruct (decide (symbol = good)) as [->|Hne].
    + right. exists (data old). rewrite lookup_insert_eq.
      split; [done|]. by eapply Hlive.
    + by rewrite lookup_insert_ne.
  - rewrite Hc. split; [by apply realtime_live_insert|].
    destruct (decide (symbol = good)) as [->|Hne].
    + right. exists v. by rewrite lookup_insert_eq.
    + by rewrite lookup_insert_ne.
  - rewrite Hc. split; [done|].
    destruct (decide (symbol = good)) as [->|Hne].
    + destruct (Hsucceeds s) as (s'' & q & Hok). congruence.
    + by rewrite lookup_insert_ne.
Qed.

End Batch.

Section Life.
Context {G E : Type} `{Runtime G E} `{Upstream G E}.

Local Abbreviation world := (world G E).

Lemma retry_keeps_cache {A} (P : cache_store -> Prop)
    (func : world -> world * result A) (remaining k : nat) (w : world) :
  (forall w0, P (cache w0) -> P (cache (fst (func w0)))) ->
  P (cache w) -> P (cache (fst (retry remaining k func w))).
Proof.
  intros Hfunc. revert k w.
  induction remaining as [|r IH]; intros k w HP; cbn [retry];
    pose proof (Hfunc w HP) as HP1;
    destruct (func w) as [w' [a|e]]; try done.
  by apply IH.
Qed.

(** Read-through caching keeps a property of the cache that writing to
    the tier at hand cannot break and that the fetch function keeps. *)
Lemma cached_or_execute_keeps (P : cache_store -> Prop) (t : cache_type)
    (key : string) (fetch_func : world -> world * result value)
    (ttl : option Q) (w : world) :
  (forall c m, P c -> P (set_tier c t m)) ->
  P (cache w) ->
  P (cache (fst (fetch_func w))) ->
  P (cache (fst (_get_cached_or_execute t key fetch_func ttl w))).
Proof.
  intros Hset HP Hfetch. unfold _get_cached_or_execute.
  assert (Hexec : P (cache (fst
    match fetch_func w with
    | (w1, Ok result) =>
        (mk_world
           (set_tier (cache w1) t
              (<[key := mk_entry result (time_time (os (machine w)))]>
                 (tier (cache w1) t)))
           (machine w1), Ok result)
    | (w1, Raise e) =>
        match tier (cache w1) t !! key with
        | Some old => (w1, Ok (data old))
        | None => (w1, Raise e)
        end
    end))).
  { destruct (fetch_func w) as [w1 [r|e]]; simpl in *.
    - by apply Hset.
    - by destruct (tier (cache w1) t !! key). }
  destruct (tier (cache w) t !! key) as [hit|]; [|done].
  by destruct (Qltb _ _).
Qed.

Lemma search_fetch_data_cache (query : string) (limit : Z) (w : world) :
  cache (fst (search_fetch_data query limit w)) = cache w.
Proof.
  unfold search_fetch_data.
  destruct (String.length query <=? 5)%nat; [|done].
  pose proof (on_machine_cache (yf_symbol_name query) w) as Hsame.
  by destruct (on_machine (yf_symbol_name query) w) as [w1 [name|]].
Qed.

Lemma search_stocks_keeps (P : cache_store -> Prop) (query : string)
    (limit : Z) (w : world) :
  (forall c m, P c -> P (set_tier c search m)) ->
  P (cache w) -> P (cache (fst (search_stocks query limit w))).
Proof.
  intros Hset. unfold search_stocks, on_exception.
  apply (retry_keeps_cache P). clear w. intros w HP.
  destruct (String.eqb query ""); [done|].
  apply cached_or_execute_keeps; [done|done|].
  by rewrite search_fetch_data_cache.
Qed.

Lemma cache_sourced_set_search (c : cache_store) (m : gmap string entry) :
  cache_sourced c -> cache_sourced (set_tier c search m).
Proof.
  intros Hc t k e Hns Hlook.
  destruct t; try done.
  - by apply (Hc realtime k e).
  - by apply (Hc historical k e).
  - by apply (Hc market k e).
Qed.

Lemma search_stocks_keeps_sourced (query : string) (limit : Z) (w : world) :
  cache_sourced (cache w) ->
  cache_sourced (cache (fst (search_stocks query limit w))).
Proof.
  apply search_stocks_keeps. intros c m. apply cache_sourced_set_search.
Qed.

Lemma sweep_keeps_entries (now bound : Q) (m : gmap string entry)
    (k : string) (e : entry) :
  sweep now bound m !! k = Some e -> m !! k = Some e.
Proof.
  rewrite SweeperFacts.lookup_sweep. unfold kept.
  destruct (m !! k) as [e'|]; [|done]. by destruct (Qgtb _ _).
Qed.

Lemma cleanup_keeps_sourced (w : world) :
  cache_sourced (cache w) ->
  cache_sourced (cache (_cleanup_cache w)) /\
  cache_sourced (cache (CacheCleanupService._perform_cleanup w)).
Proof.
  intros Hc. split; intros t k e Hns Hlook; apply (Hc t k e Hns);
    destruct t; simpl in *; try done; by eapply sweep_keeps_entries.
Qed.

Lemma batch_keeps_sourced (symbols : list string) (w : world) :
  cache_sourced (cache w) ->
  cache_sourced (cache (fst (get_batch_stock_details symbols w))).
Proof.
  intros Hc. destruct symbols as [|first rest]; [done|].
  unfold get_batch_stock_details.
  generalize (first :: rest). clear first rest. intros symbols.
  set (results0 := batch_precheck _ _ _).
  set (symbols_to_fetch := List.filter _ _).
  pose proof (batch_loops_keep (fun c _ => cache_sourced c) symbols_to_fetch)
    as Hkeep.
  specialize (Hkeep
    ltac:(intros symbol w0 r _ Hc0; unfold process_symbol;
          destruct (get_stock_details_sourced symbol (pace (5 # 10) 1 w0))
            as [Hc1 (v & Hv & _)]; [by rewrite pace_cache|];
          destruct (get_stock_details symbol (pace (5 # 10) 1 w0))
            as [w1 ret]; simpl in *; by subst ret)
    (py_range_step (length symbols_to_fetch) 3) w results0 Hc).
  by destruct (foldl _ (w, results0) _).
Qed.

(** From an empty cache on, the realtime, historical and market tiers
    hold only values that carry a written source. *)
Lemma reachable_cache_sourced (w : world) :
  Process.reachable w -> cache_sourced (cache w).
Proof.
  induction 1 as [s | w s _ IH | w query limit _ IH | w symbol _ IH
                 | w symbols _ IH | w symbol timeframe _ IH | w _ IH
                 | w limit _ IH | w limit _ IH | w _ IH | w _ IH].
  - intros t k e _ Hlook. by destruct t.
  - done.
  - by apply search_stocks_keeps_sourced.
  - by apply get_stock_details_sourced.
  - by apply batch_keeps_sourced.
  - by apply get_historical_data_sourced.
  - by apply get_market_summary_sourced.
  - by apply get_market_movers_sourced.
  - by apply get_most_watched_sourced.
  - by apply cleanup_keeps_sourced.
  - by apply cleanup_keeps_sourced.
Qed.

Lemma realtime_live_set_other (c : cache_store) (t : cache_type)
    (m : gmap string entry) :
  t <> realtime -> realtime_live c -> realtime_live (set_tier c t m).
Proof. intros Hne Hc k e Hlook. destruct t; try done; by apply (Hc k e). Qed.

Lemma get_stock_details_keeps_live (symbol : string) (w : world) :
  realtime_live (cache w) ->
  realtime_live (cache (fst (get_stock_details symbol w))).
Proof.
  intros Hc.
  destruct (get_stock_details_cases symbol w) as (w' & v & -> & Hcases).
  cbn [fst].
  destruct Hcases as [(-> & _)|[(Hv & _ & now & ->)|(-> & _)]]; try done.
  by apply realtime_live_insert.
Qed.

Lemma historical_fetch_data_cache (symbol timeframe : string) (w : world) :
  cache (fst (historical_fetch_data symbol timeframe w)) = cache w.
Proof.
  unfold historical_fetch_data.
  destruct (timeframe_params timeframe) as [[period interval] date_format].
  pose proof (on_machine_cache
                (yf_history symbol period interval date_format) w) as Hsame.
  by destruct (on_machine _ _) as [w1 [s|e]].
Qed.

Lemma get_historical_data_keeps_live (symbol timeframe : string) (w : world) :
  realtime_live (cache w) ->
  realtime_live (cache (fst (get_historical_data symbol timeframe w))).
Proof.
  intros Hc. rewrite get_historical_data_unfold.
  unfold get_historical_data_body.
  assert (Hkeep : realtime_live (cache (fst
    (_get_cached_or_execute historical
       ("historical_" +:+ upper symbol +:+ "_" +:+ timeframe)
       (historical_fetch_data (upper symbol) timeframe) None
       (after_wait w))))).
  { apply cached_or_execute_keeps.
    - intros c m. by apply realtime_live_set_other.
    - by rewrite after_wait_cache.
    - by rewrite historical_fetch_data_cache, after_wait_cache. }
  destruct (_get_cached_or_execute _ _ _ _ _) as [w1 [v|e]]; [done|].
  destruct (mock_historical_sourced (upper symbol) timeframe w1) as [Hmock _].
  destruct (_get_mock_historical_data _ _ _) as [w2 v]; simpl in *.
  by rewrite Hmock.
Qed.

(** An operation on the market tier that answers a raised exception with
    a constant mock keeps the realtime tier live if its fetch does. *)
Lemma market_operation_keeps_live (key : string)
    (fetch_func : world -> world * result value) (mock : world -> value)
    (w : world) :
  realtime_live (cache w) ->
  realtime_live (cache (fst (fetch_func w))) ->
  realtime_live
    (cache (fst (match _get_cached_or_execute market key fetch_func None w with
                 | (w1, Ok v) => (w1, Ok v)
                 | (w1, Raise e) => (w1, Ok (mock w1))
                 end))).
Proof.
  intros Hc Hfetch.
  pose proof (cached_or_execute_keeps realtime_live market key fetch_func
                None w ltac:(intros c m; by apply realtime_live_set_other)
                Hc Hfetch) as Hkeep.
  by destruct (_get_cached_or_execute _ _ _ _ _) as [w1 [v|e]].
Qed.

Lemma get_market_summary_keeps_live (w : world) :
  realtime_live (cache w) ->
  realtime_live (cache (fst (get_market_summary w))).
Proof.
  intros Hc. unfold get_market_summary. rewrite rate_limit_runs.
  apply (retry_keeps_cache realtime_live); [|by rewrite after_wait_cache].
  intros w0 Hc0. apply market_operation_keeps_live; [done|].
  unfold market_fetch_data.
  pose proof (on_machine_cache yf_market w0) as Hsame.
  destruct (on_machine _ _) as [w1 [[[indices sectors] status]|e]];
    simpl in *; by rewrite Hsame.
Qed.

Lemma get_market_movers_keeps_live (limit : Z) (w : world) :
  realtime_live (cache w) ->
  realtime_live (cache (fst (get_market_movers limit w))).
Proof.
  intros Hc. unfold get_market_movers. rewrite rate_limit_runs.
  apply (retry_keeps_cache realtime_live); [|by rewrite after_wait_cache].
  intros w0 Hc0. apply market_operation_keeps_live; [done|].
  unfold movers_fetch_data.
  pose proof (on_machine_cache (yf_movers (Z.min limit 5)) w0) as Hsame.
  destruct (on_machine _ _) as [w1 [[gainers losers]|e]];
    simpl in *; by rewrite Hsame.
Qed.

Lemma watched_loop_keeps_live (symbols : list string) (watched : list value)
    (w : world) :
  realtime_live (cache w) ->
  realtime_live (cache (fst (watched_loop symbols watched w))).
Proof.
  revert watched w.
  induction symbols as [|symbol rest IH]; intros watched w Hc; [done|].
  cbn [watched_loop].
  pose proof (get_stock_details_keeps_live symbol w Hc) as Hc1.
  destruct (get_stock_details symbol w) as [w1 [stock|e]]; simpl in *;
    apply IH; by rewrite pace_cache.
Qed.

Lemma get_most_watched_keeps_live (limit : Z) (w : world) :
  realtime_live (cache w) ->
  realtime_live (cache (fst (get_most_watched limit w))).
Proof.
  intros Hc. unfold get_most_watched. rewrite rate_limit_runs.
  apply market_operation_keeps_live; [by rewrite after_wait_cache|].
  unfold watched_fetch_data.
  pose proof (watched_loop_keeps_live
                (py_slice_to ["AAPL"; "MSFT"; "GOOGL"; "AMZN"; "TSLA"]
                             (Z.min limit 5))
                [] (after_wait w) ltac:(by rewrite after_wait_cache))
    as Hloop.
  destruct (watched_loop _ _ _) as [w1 watched]. cbn [fst] in Hloop.
  destruct watched as [|[| | | | |d] rest]; try done.
  by destruct (dict_get "dataSource" d).
Qed.

Lemma batch_keeps_realtime_live (symbols : list string) (w : world) :
  realtime_live (cache w) ->
  realtime_live (cache (fst (get_batch_stock_details symbols w))).
Proof.
  intros Hc. destruct symbols as [|first rest]; [done|].
  unfold get_batch_stock_details.
  generalize (first :: rest). clear first rest. intros symbols.
  set (results0 := batch_precheck _ _ _).
  set (symbols_to_fetch := List.filter _ _).
  pose proof (batch_loops_keep (fun c _ => realtime_live c) symbols_to_fetch)
    as Hkeep.
  specialize (Hkeep
    ltac:(intros symbol w0 r _ Hc0;
          destruct (process_symbol_cases symbol w0 r)
            as (w' & v & -> & Hcases); cbn [fst];
          destruct Hcases as [(-> & _)|[(Hv & _ & now & ->)|(-> & _)]];
          try done; by apply realtime_live_insert)
    (py_range_step (length symbols_to_fetch) 3) w results0 Hc).
  by destruct (foldl _ (w, results0) _).
Qed.

Lemma cleanup_keeps_live (w : world) :
  realtime_live (cache w) ->
  realtime_live (cache (_cleanup_cache w)) /\
  realtime_live (cache (CacheCleanupService._perform_cleanup w)).
Proof.
  intros Hc. split; intros k e Hlook; apply (Hc k e); simpl in *;
    by eapply sweep_keeps_entries.
Qed.

(** From an empty cache on, the realtime tier holds only quotes fetched
    from upstream. *)
Lemma reachable_realtime_live (w : world) :
  Process.reachable w -> realtime_live (cache w).
Proof.
  induction 1 as [s | w s _ IH | w query limit _ IH | w symbol _ IH
                 | w symbols _ IH | w symbol timeframe _ IH | w _ IH
                 | w limit _ IH | w limit _ IH | w _ IH | w _ IH].
  - intros k e Hlook. simpl in Hlook. by apply lookup_empty_Some in Hlook.
  - done.
  - apply search_stocks_keeps; [|done].
    intros c m. by apply realtime_live_set_other.
  - by apply get_stock_details_keeps_live.
  - by apply batch_keeps_realtime_live.
  - by apply get_historical_data_keeps_live.
  - by apply get_market_summary_keeps_live.
  - by apply get_market_movers_keeps_live.
  - by apply get_most_watched_keeps_live.
  - by apply cleanup_keeps_live.
  - by apply cleanup_keeps_live.
Qed.

(** C6, amended.  In every state the process reaches from the empty cache
    of a new service, each of the five public data operations returns a
    value whose ["dataSource"] is ["yfinance"], ["mock"] or ["unknown"]. *)
Theorem public_operations_sourced (w : world) :
  Process.reachable w ->
  (forall symbol,
     exists v, snd (get_stock_details symbol w) = Ok v /\
               source_in written_sources v = true) /\
  (forall symbol timeframe,
     exists v, snd (get_historical_data symbol timeframe w) = Ok v /\
               source_in written_sources v = true) /\
  (exists v, snd (get_market_summary w) = Ok v /\
             source_in written_sources v = true) /\
  (forall limit,
     exists v, snd (get_market_movers limit w) = Ok v /\
               source_in written_sources v = true) /\
  (forall limit,
     exists v, snd (get_most_watched limit w) = Ok v /\
               source_in written_sources v = true).
Proof.
  intros Hc%reachable_cache_sourced. split; [|split; [|split; [|split]]].
  - intros symbol. by apply get_stock_details_sourced.
  - intros symbol timeframe. by apply get_historical_data_sourced.
  - by apply get_market_summary_sourced.
  - intros limit. by apply get_market_movers_sourced.
  - intros limit. by apply get_most_watched_sourced.
Qed.

(** C5.  [get_batch_stock_details] always returns a map, with exactly the
    distinct requested symbols as keys; a requested symbol whose upstream
    always fails and for which nothing is cached gets the mock of its
    upper-cased name, and, in every state the process reaches, a
    requested symbol whose upstream always succeeds gets a quote that came
    from upstream, whatever happens to the other symbols of the batch. *)
Theorem batch_isolation (symbols : list string) (w : world) :
  exists w' results,
    get_batch_stock_details symbols w = (w', Ok results) /\
    dom results = list_to_set symbols /\
    (forall bad,
       bad ∈ symbols ->
       upstream_always_fails (upper bad) ->
       realtime_cache (cache w) !! ("details_" +:+ bad) = None ->
       realtime_cache (cache w) !! ("details_" +:+ upper bad) = None ->
       exists w1,
         results !! bad
         = Some (snd (_get_mock_stock_details (upper bad) w1))) /\
    (forall good,
       good ∈ symbols ->
       upstream_always_succeeds (upper good) ->
       Process.reachable w ->
       exists v,
         results !! good = Some v /\
         data_source v = Some (VStr "yfinance")).
Proof.
  destruct symbols as [|first rest].
  { exists w, ∅. split; [done|]. split; [by rewrite dom_empty_L|].
    split; intros x Hx; by apply elem_of_nil in Hx. }
  unfold get_batch_stock_details.
  generalize (first :: rest). clear first rest. intros symbols.
  set (now := time_time (os (machine w))).
  set (results0 := batch_precheck now (cache w) symbols).
  set (symbols_to_fetch :=
         List.filter (fun s => bool_decide (results0 !! s = None)) symbols).
  pose proof (dom_batch_loops symbols_to_fetch w results0) as Hdom.
  pose proof (fun bad => batch_keeps_failing bad symbols_to_fetch
                (py_range_step (length symbols_to_fetch) 3) w results0)
    as Hbad.
  pose proof (fun good => batch_keeps_live good symbols_to_fetch
                (py_range_step (length symbols_to_fetch) 3) w results0)
    as Hgood.
  destruct (foldl _ (w, results0) _) as [w' results]. cbn [fst snd] in *.
  assert (Hkeys : dom results = list_to_set symbols).
  { rewrite Hdom. apply set_eq. intros x.
    rewrite elem_of_union, elem_of_dom, !elem_of_list_to_set.
    unfold symbols_to_fetch. rewrite list_elem_of_In, filter_In.
    rewrite <- list_elem_of_In, bool_decide_eq_true.
    unfold results0 at 1. rewrite lookup_batch_precheck.
    case_bool_decide as Hin.
    - split; [done|]. intros _.
      destruct (results0 !! x) eqn:Hx; [|by right].
      left. unfold results0 in Hx. rewrite lookup_batch_precheck in Hx.
      rewrite bool_decide_eq_true_2 in Hx by done. by rewrite Hx.
    - split; [|done]. intros [[? [=]]|[? _]]; done. }
  exists w', results. split; [done|]. split; [done|]. split.
  - intros bad Hin Hfails Hraw Hupper.
    assert (Hres0 : results0 !! bad = None).
    { unfold results0. rewrite lookup_batch_precheck.
      case_bool_decide; [|done]. unfold cached_fresh. by rewrite Hraw. }
    destruct (Hbad bad Hfails Hupper Hres0) as [Hnone|Hmock]; [|done].
    exfalso. apply not_elem_of_dom in Hnone. apply Hnone.
    rewrite Hkeys. by apply elem_of_list_to_set.
  - intros good Hin Hsucceeds Hlive%reachable_realtime_live.
    assert (Hres0 : results0 !! good = None \/
                    exists v, results0 !! good = Some v /\
                              data_source v = Some (VStr "yfinance")).
    { unfold results0. rewrite lookup_batch_precheck.
      case_bool_decide; [|by left]. unfold cached_fresh.
      destruct (realtime_cache (cache w) !! ("details_" +:+ good))
        as [hit|] eqn:Hhit; [|by left].
      destruct (Qltb _ _); [|by left].
      right. exists (data hit). split; [done|]. by eapply Hlive. }
    destruct (Hgood good Hsucceeds Hlive Hres0) as [Hnone|Hv]; [|done].
    exfalso. apply not_elem_of_dom in Hnone. apply Hnone.
    rewrite Hkeys. by apply elem_of_list_to_set.
Qed.


End Life.

Import Demo.

(** C6, as stated, fails: a quote fetched from the upstream source is
    returned with ["dataSource"] equal to ["yfinance"], and with no
    stock resolved [get_most_watched] answers ["unknown"]. *)
Lemma live_source_example :
  result_source (snd (get_stock_details "AAPL" (boot 0)))
    = Some (VStr "yfinance") /\
  result_source (snd (get_most_watched 0 (boot 0)))
    = Some (VStr "unknown") /\
  source_in specified_sources (VDict [("dataSource", VStr "yfinance")])
    = false /\
  source_in specified_sources (VDict [("dataSource", VStr "unknown")])
    = false.
Proof. repeat split; vm_compute; reflexivity. Qed.

Lemma public_operations_sourced_witness :
  (exists v,
     snd (get_stock_details "AAPL" (fst (get_stock_details "AAPL" (boot 0))))
       = Ok v /\
     source_in written_sources v = true) /\
  (exists v,
     snd (get_most_watched 2 (fst (get_stock_details "AAPL" (boot 0))))
       = Ok v /\
     source_in written_sources v = true).
Proof.
  pose proof (public_operations_sourced
                (fst (get_stock_details "AAPL" (boot 0)))
                (Process.reach_details (boot 0) "AAPL"
                   (Process.reach_start (mk_sys [] 0%Z 0%Q))))
    as (Hdetails & _ & _ & _ & Hwatched).
  split; [apply Hdetails|apply Hwatched].
Defined.



Lemma demo_bad_always_fails : upstream_always_fails (upper "BAD").
Proof. intros s. by exists s, (UpstreamError "no data"). Qed.

Lemma demo_aapl_always_succeeds : upstream_always_succeeds (upper "AAPL").
Proof. intros s. by exists s, (quote_of "AAPL"). Qed.

Lemma batch_isolation_witness :
  exists w' results,
    get_batch_stock_details ["AAPL"; "MSFT"; "BAD"; "GOOGL"; "TSLA"] (boot 0)
      = (w', Ok results) /\
    dom results = list_to_set ["AAPL"; "MSFT"; "BAD"; "GOOGL"; "TSLA"] /\
    (exists w1,
       results !! "BAD" = Some (snd (_get_mock_stock_details "BAD" w1))) /\
    (exists v,
       results !! "AAPL" = Some v /\
       data_source v = Some (VStr "yfinance")).
Proof.
  destruct (batch_isolation ["AAPL"; "MSFT"; "BAD"; "GOOGL"; "TSLA"] (boot 0))
    as (w' & results & Hrun & Hkeys & Hbad & Hgood).
  exists w', results. split; [exact Hrun|]. split; [exact Hkeys|]. split.
  - apply (Hbad "BAD").
    + apply list_elem_of_further, list_elem_of_further, list_elem_of_here.
    + exact demo_bad_always_fails.
    + reflexivity.
    + reflexivity.
  - apply (Hgood "AAPL").
    + apply list_elem_of_here.
    + exact demo_aapl_always_succeeds.
    + exact (Process.reach_start (mk_sys [] 0%Z 0%Q)).
Defined.

End ServiceFacts.

(* ===================================================================== *)
(** * More on the rate limiter                                            *)
(* ===================================================================== *)

Module RateLimiterOrder.
Import RateLimiter.






Section Order.
Context {Env : Type} `{Clock Env}.

Hypothesis sleep_lasts :
  forall d e, (time_time e + d <= time_time (time_sleep d e))%Q.
Hypothesis jitter_positive :
  forall e, (0 < fst (jitter e))%Q /\
            (time_time e <= time_time (snd (jitter e)))%Q.


End Order.


(** X2.  A call that finds the window full returns, later than the oldest
    kept stamp plus the period, and appends the time it read after the
    sleep behind the stamps it kept. *)
Theorem full_window_waits_out_oldest {Env : Type} `{Clock Env}
    (self : t) (e : Env) (t0 : Q) (rest : list Q) :
  (forall d e0, (time_time e0 + d <= time_time (time_sleep d e0))%Q) ->
  (forall e0, (0 < fst (jitter e0))%Q /\
              (time_time e0 <= time_time (snd (jitter e0)))%Q) ->
  prune (time_time e) (period self) (timestamps self) = t0 :: rest ->
  (max_calls self <= Z.of_nat (length (t0 :: rest)))%Z ->
  returned (wait_if_needed self e) = Ok tt /\
  (t0 + period self < time_time (env (wait_if_needed self e)))%Q /\
  timestamps (limiter (wait_if_needed self e))
    = t0 :: rest ++ [time_time (env (wait_if_needed self e))].
Proof.
  intros Hsleep Hjit Hpr Hfull. unfold wait_if_needed. rewrite Hpr.
  apply Z.leb_le in Hfull. rewrite Hfull.
  pose proof (Hjit e) as [Hj He1]. destruct (jitter e) as [j e1].
  simpl in *.
  pose proof (Hsleep (py_max0 (t0 + period self - time_time e + j)) e1).
  pose proof (py_max0_ge (t0 + period self - time_time e + j)).
  split; [done|]. split; [lra|done].
Qed.

Lemma full_window_waits_out_oldest_witness :
  returned (wait_if_needed one_call_recorded 1%Q) = Ok tt /\
  (0 + period one_call_recorded
   < time_time (env (wait_if_needed one_call_recorded 1%Q)))%Q /\
  timestamps (limiter (wait_if_needed one_call_recorded 1%Q))
    = 0%Q :: [] ++ [time_time (env (wait_if_needed one_call_recorded 1%Q))].
Proof.
  apply (full_window_waits_out_oldest one_call_recorded 1%Q 0%Q []).
  - exact RateLimiterFacts.ideal_sleep_lasts.
  - exact RateLimiterFacts.ideal_jitter_positive.
  - reflexivity.
  - simpl. lia.
Defined.

(** X3.  A limiter configured with [max_calls <= 0] whose deque is empty
    once pruned, as on the first call, raises [IndexError] at
    [self.timestamps[0]]: it records nothing and does not sleep. *)
Theorem misconfigured_limiter_raises {Env : Type} `{Clock Env}
    (self : t) (e : Env) :
  (max_calls self <= 0)%Z ->
  prune (time_time e) (period self) (timestamps self) = [] ->
  returned (wait_if_needed self e)
    = Raise (IndexError "deque index out of range") /\
  timestamps (limiter (wait_if_needed self e)) = [] /\
  trace (wait_if_needed self e) = [LockAcquire; LockRelease].
Proof.
  intros Hmax Hpr. unfold wait_if_needed. rewrite Hpr.
  assert (Hle : (max_calls self <=? Z.of_nat (length (@nil Q)))%Z = true)
    by (apply Z.leb_le; simpl; lia).
  by rewrite Hle.
Qed.

Lemma misconfigured_limiter_raises_witness :
  returned (wait_if_needed (init 0 60) 0%Q)
    = Raise (IndexError "deque index out of range") /\
  timestamps (limiter (wait_if_needed (init 0 60) 0%Q)) = [] /\
  trace (wait_if_needed (init 0 60) 0%Q) = [LockAcquire; LockRelease].
Proof.
  apply (misconfigured_limiter_raises (init 0 60) 0%Q).
  - simpl. lia.
  - reflexivity.
Defined.

End RateLimiterOrder.

(* ===================================================================== *)
(** * More on the cache and its sweepers                                  *)
(* ===================================================================== *)

Module CacheLife.
Import StockService CacheCleanupService.

Lemma tier_set_tier (c : cache_store) (t : cache_type)
    (m : gmap string entry) :
  tier (set_tier c t m) t = m.
Proof. by destruct t. Qed.

Lemma tier_set_tier_ne (c : cache_store) (t t' : cache_type)
    (m : gmap string entry) :
  t' <> t -> tier (set_tier c t m) t' = tier c t'.
Proof. by destruct t, t'. Qed.

Lemma kept_kept (now bound bound' : Q) (o : option entry) :
  (bound <= bound')%Q -> kept now bound' (kept now bound o) = kept now bound o.
Proof.
  intros Hle. destruct o as [e|]; [|done]. simpl.
  destruct (Qgtb (now - timestamp e) bound) eqn:Hexp; [done|]. simpl.
  destruct (Qgtb (now - timestamp e) bound') eqn:Hexp'; [|done].
  apply Qgtb_false in Hexp. apply Qgtb_true in Hexp'. lra.
Qed.

Lemma sweep_sweep (now bound bound' : Q) (m : gmap string entry) :
  (bound <= bound')%Q -> sweep now bound' (sweep now bound m) = sweep now bound m.
Proof.
  intros Hle. apply map_eq. intros k.
  rewrite !SweeperFacts.lookup_sweep. by apply kept_kept.
Qed.

Section Sweeps.
Context {G E : Type} `{Runtime G E}.

(** X6.  At one clock reading each sweeper is idempotent, and
    [_perform_cleanup] finds nothing left to delete after
    [_cleanup_cache]. *)
Theorem sweeps_compose (w : world G E) :
  _cleanup_cache (_cleanup_cache w) = _cleanup_cache w /\
  _perform_cleanup (_perform_cleanup w) = _perform_cleanup w /\
  _perform_cleanup (_cleanup_cache w) = _cleanup_cache w.
Proof.
  unfold _cleanup_cache, _perform_cleanup. cbn [cache machine].
  cbn [realtime_cache historical_cache search_cache market_cache].
  split; [|split]; f_equal; f_equal;
    apply sweep_sweep;
    unfold REALTIME_TTL, HISTORICAL_TTL, SEARCH_TTL, MARKET_TTL; lra.
Qed.

(** X7.  When every entry of every tier is older than the TTL of its tier,
    one pass of [_cleanup_cache] leaves the four tiers empty. *)
Theorem cleanup_empties_expired_cache (w : world G E) :
  (forall t k e,
     tier (cache w) t !! k = Some e ->
     (tier_ttl t < time_time (os (machine w)) - timestamp e)%Q) ->
  cache (_cleanup_cache w) = empty_cache.
Proof.
  intros Hold.
  assert (Hsweep : forall t,
    sweep (time_time (os (machine w))) (tier_ttl t) (tier (cache w) t) = ∅).
  { intros t. apply map_eq. intros k.
    rewrite SweeperFacts.lookup_sweep, lookup_empty. unfold kept.
    destruct (tier (cache w) t !! k) as [e|] eqn:Hk; [|done].
    apply Hold, Qgtb_true in Hk. by rewrite Hk. }
  unfold _cleanup_cache, empty_cache. cbn [cache].
  f_equal; [apply (Hsweep realtime) | apply (Hsweep historical)
           | apply (Hsweep search) | apply (Hsweep market)].
Qed.

End Sweeps.

Section Reads.
Context {G E : Type} `{Runtime G E} `{Upstream G E}.

(** X4.  What a successful fetch stored is served to every later read of
    the key made less than the TTL after the clock reading of the storing
    call, from any process state with that cache and without running the
    fetch function of the later read. *)
Theorem stored_result_is_served (t : cache_type) (key : string)
    (fetch_func other_fetch : world G E -> world G E * result value)
    (ttl : option Q) (w w1 w2 : world G E) (r : value) :
  let now := time_time (os (machine w)) in
  let ttl' := match ttl with Some x => x | None => tier_ttl t end in
  (forall hit, tier (cache w) t !! key = Some hit ->
               (ttl' <= now - timestamp hit)%Q) ->
  fetch_func w = (w1, Ok r) ->
  cache w2 = cache (fst (_get_cached_or_execute t key fetch_func ttl w)) ->
  (time_time (os (machine w2)) - now < ttl')%Q ->
  _get_cached_or_execute t key other_fetch ttl w2 = (w2, Ok r).
Proof.
  simpl. intros Hstale Hfetch Hcache Hsoon.
  assert (Hstored :
    tier (cache w2) t !! key
    = Some (mk_entry r (time_time (os (machine w))))).
  { rewrite Hcache. unfold _get_cached_or_execute. rewrite Hfetch.
    destruct (tier (cache w) t !! key) as [hit|] eqn:Hhit.
    - specialize (Hstale hit eq_refl). apply Qltb_false in Hstale.
      rewrite Hstale. cbn [fst cache]. rewrite tier_set_tier.
      apply lookup_insert_eq.
    - cbn [fst cache]. rewrite tier_set_tier. apply lookup_insert_eq. }
  unfold _get_cached_or_execute. rewrite Hstored. cbn [timestamp data].
  apply Qltb_true in Hsoon. by rewrite Hsoon.
Qed.

(** X5.  With a fetch function that leaves the cache alone, a read changes
    no entry but the one under its own tier and key, and changes nothing
    at all when the fetch raises. *)
Theorem read_touches_one_entry (t : cache_type) (key : string)
    (fetch_func : world G E -> world G E * result value)
    (ttl : option Q) (w : world G E) :
  cache (fst (fetch_func w)) = cache w ->
  (forall t' k',
     t' <> t \/ k' <> key ->
     tier (cache (fst (_get_cached_or_execute t key fetch_func ttl w))) t' !! k'
     = tier (cache w) t' !! k') /\
  (forall e,
     snd (fetch_func w) = Raise e ->
     cache (fst (_get_cached_or_execute t key fetch_func ttl w)) = cache w).
Proof.
  intros Hsame. unfold _get_cached_or_execute.
  destruct (fetch_func w) as [w1 [r|e]] eqn:Hfetch; simpl in Hsame.
  - split; [|done]. intros t' k' Hother.
    assert (Hexec :
      tier (set_tier (cache w1) t
              (<[key := mk_entry r (time_time (os (machine w)))]>
                 (tier (cache w1) t))) t' !! k'
      = tier (cache w) t' !! k').
    { destruct (decide (t' = t)) as [->|Hne].
      - rewrite tier_set_tier, Hsame.
        destruct Hother as [?|Hk]; [done|]. by apply lookup_insert_ne.
      - by rewrite tier_set_tier_ne, Hsame. }
    destruct (tier (cache w) t !! key) as [hit|]; [|done].
    by destruct (Qltb _ _).
  - assert (Hexec :
      cache (fst (match tier (cache w1) t !! key with
                  | Some old => (w1, Ok (data old))
                  | None => (w1, @Raise value e)
                  end)) = cache w)
      by by destruct (tier (cache w1) t !! key).
    split.
    + intros t' k' _.
      destruct (tier (cache w) t !! key) as [hit|];
        [destruct (Qltb _ _)|]; try done; by rewrite Hexec.
    + intros e' _.
      destruct (tier (cache w) t !! key) as [hit|];
        [destruct (Qltb _ _)|]; done.
Qed.

(** X8.  Neither sweeper turns a hit into a miss: an entry that is fresh
    when a sweeper runs is served to a read made right after it, without
    a fetch. *)
Theorem sweep_keeps_hits (t : cache_type) (key : string)
    (fetch_func : world G E -> world G E * result value)
    (w : world G E) (hit : entry) :
  tier (cache w) t !! key = Some hit ->
  (time_time (os (machine w)) - timestamp hit < tier_ttl t)%Q ->
  _get_cached_or_execute t key fetch_func None (_cleanup_cache w)
    = (_cleanup_cache w, Ok (data hit)) /\
  _get_cached_or_execute t key fetch_func None (_perform_cleanup w)
    = (_perform_cleanup w, Ok (data hit)).
Proof.
  intros Hhit Hfresh.
  assert (Hkept : forall bound,
    (tier_ttl t <= bound)%Q ->
    kept (time_time (os (machine w))) bound (tier (cache w) t !! key)
    = Some hit).
  { intros bound Hle. rewrite Hhit. simpl.
    destruct (Qgtb _ bound) eqn:Hexp; [|done].
    apply Qgtb_true in Hexp. lra. }
  pose proof Hfresh as Hlt. apply Qltb_true in Hlt.
  split; unfold _get_cached_or_execute.
  - assert (Hlook : tier (cache (_cleanup_cache w)) t !! key = Some hit).
    { destruct t; simpl; rewrite SweeperFacts.lookup_sweep;
        apply Hkept; simpl; lra. }
    rewrite Hlook. cbn [machine _cleanup_cache]. by rewrite Hlt.
  - assert (Hlook : tier (cache (_perform_cleanup w)) t !! key = Some hit).
    { destruct t; simpl; try rewrite SweeperFacts.lookup_sweep;
        try done; apply Hkept; unfold tier_ttl, REALTIME_TTL, HISTORICAL_TTL;
        lra. }
    rewrite Hlook. cbn [machine _perform_cleanup]. by rewrite Hlt.
Qed.

(** X9.  [_cleanup_cache] takes the stale fallback away: once it has run
    over an entry older than the TTL of its tier, a read whose fetch
    raises (and leaves the cache alone) raises too. *)
Theorem cleanup_removes_stale_fallback (t : cache_type) (key : string)
    (fetch_func : world G E -> world G E * result value)
    (w w1 : world G E) (old : entry) (e : exn) :
  tier (cache w) t !! key = Some old ->
  (tier_ttl t < time_time (os (machine w)) - timestamp old)%Q ->
  fetch_func (_cleanup_cache w) = (w1, Raise e) ->
  cache w1 = cache (_cleanup_cache w) ->
  _get_cached_or_execute t key fetch_func None (_cleanup_cache w)
    = (w1, Raise e).
Proof.
  intros Hold Hstale Hfetch Hsame.
  assert (Hgone : tier (cache (_cleanup_cache w)) t !! key = None).
  { apply Qgtb_true in Hstale.
    destruct t; simpl; rewrite SweeperFacts.lookup_sweep;
      simpl in Hold; rewrite Hold; simpl; simpl in Hstale;
      by rewrite Hstale. }
  unfold _get_cached_or_execute. rewrite Hgone, Hfetch, Hsame.
  by rewrite Hgone.
Qed.

End Reads.
Import Demo.

Lemma cleanup_empties_expired_cache_witness :
  cache (_cleanup_cache (with_aapl 100)) = empty_cache.
Proof.
  apply (cleanup_empties_expired_cache (with_aapl 100)).
  intros t k e Hlook.
  destruct t; simpl in Hlook;
    try (by apply lookup_empty_Some in Hlook);
    apply lookup_singleton_Some in Hlook as [_ <-]; reflexivity.
Defined.

Lemma stored_result_is_served_witness :
  _get_cached_or_execute realtime "details_AAPL" fetch_fails None
    (later 10 (fst (_get_cached_or_execute realtime "details_AAPL"
                      fetch_ok None (with_aapl 30))))
  = (later 10 (fst (_get_cached_or_execute realtime "details_AAPL"
                      fetch_ok None (with_aapl 30))),
     Ok (VStr "fetched")).
Proof.
  apply (stored_result_is_served realtime "details_AAPL" fetch_ok fetch_fails
           None (with_aapl 30) (fst (fetch_ok (with_aapl 30)))).
  - intros hit Hhit. simpl in Hhit.
    apply lookup_singleton_Some in Hhit as [_ <-]. vm_compute. discriminate.
  - reflexivity.
  - reflexivity.
  - reflexivity.
Defined.

Lemma read_touches_one_entry_witness :
  (forall t' k',
     t' <> realtime \/ k' <> "details_AAPL" ->
     tier (cache (fst (_get_cached_or_execute realtime "details_AAPL"
                         fetch_ok None (with_aapl 30)))) t' !! k'
     = tier (cache (with_aapl 30)) t' !! k') /\
  (forall e,
     snd (fetch_ok (with_aapl 30)) = Raise e ->
     cache (fst (_get_cached_or_execute realtime "details_AAPL"
                   fetch_ok None (with_aapl 30)))
     = cache (with_aapl 30)).
Proof.
  apply (read_touches_one_entry realtime "details_AAPL" fetch_ok None
           (with_aapl 30)).
  reflexivity.
Defined.

Lemma sweep_keeps_hits_witness :
  _get_cached_or_execute realtime "details_AAPL" fetch_fails None
      (_cleanup_cache (with_aapl 10))
    = (_cleanup_cache (with_aapl 10), Ok aapl_quote) /\
  _get_cached_or_execute realtime "details_AAPL" fetch_fails None
      (_perform_cleanup (with_aapl 10))
    = (_perform_cleanup (with_aapl 10), Ok aapl_quote).
Proof.
  apply (sweep_keeps_hits realtime "details_AAPL" fetch_fails (with_aapl 10)
           (mk_entry aapl_quote 0)).
  - reflexivity.
  - reflexivity.
Defined.

Lemma cleanup_removes_stale_fallback_witness :
  _get_cached_or_execute realtime "details_AAPL" fetch_fails None
      (_cleanup_cache (with_aapl 45))
    = (fst (fetch_fails (_cleanup_cache (with_aapl 45))),
       Raise (UpstreamError "timeout")).
Proof.
  apply (cleanup_removes_stale_fallback realtime "details_AAPL" fetch_fails
           (with_aapl 45) (fst (fetch_fails (_cleanup_cache (with_aapl 45))))
           (mk_entry aapl_quote 0) (UpstreamError "timeout")).
  - reflexivity.
  - reflexivity.
  - reflexivity.
  - reflexivity.
Defined.

End CacheLife.

(* ===================================================================== *)
(** * More on the operations of the service                               *)
(* ===================================================================== *)

Module ServiceLife.
Import StockService ServiceFacts.

Section Details.
Context {G E : Type} `{Runtime G E} `{Upstream G E}.

Local Abbreviation world := (world G E).

(** What [@rate_limit] does to the deque of the global limiter. *)
Lemma after_wait_records (w : world) :
  exists stamp,
    yahoo (machine (after_wait w))
    = RateLimiter.prune (time_time (os (machine w))) 60 (yahoo (machine w))
      ++ [stamp].
Proof.
  unfold after_wait, on_machine, yahoo_wait, RateLimiter.wait_if_needed.
  cbn -[Z.of_nat Z.leb].
  destruct (25 <=? _)%Z eqn:Hfull.
  - apply Z.leb_le in Hfull.
    destruct (RateLimiter.prune _ _ _) as [|t0 rest];
      [simpl in Hfull; lia|].
    destruct (random_uniform _ _ _). simpl. by eexists.
  - simpl. by eexists.
Qed.


(** X11.  A fresh quote cached under the upper-cased symbol is served to
    [get_stock_details] whatever the case of the symbol asked for, with
    no fetch; the call has all the same gone through [@rate_limit], which
    recorded one more stamp in the deque of the global limiter. *)
Theorem details_served_from_cache (symbol : string) (w : world)
    (hit : entry) :
  realtime_cache (cache w) !! ("details_" +:+ upper symbol) = Some hit ->
  (time_time (os (machine (after_wait w))) - timestamp hit < REALTIME_TTL)%Q ->
  get_stock_details symbol w = (after_wait w, Ok (data hit)) /\
  cache (after_wait w) = cache w /\
  exists stamp,
    yahoo (machine (after_wait w))
    = RateLimiter.prune (time_time (os (machine w))) 60 (yahoo (machine w))
      ++ [stamp].
Proof.
  intros Hhit Hfresh. split; [|split].
  - rewrite get_stock_details_unfold.
    unfold get_stock_details_body, _get_cached_or_execute.
    rewrite after_wait_cache. cbn [tier]. rewrite Hhit.
    apply Qltb_true in Hfresh. cbn [tier_ttl]. by rewrite Hfresh.
  - apply after_wait_cache.
  - apply after_wait_records.
Qed.

(** X12.  When every requested symbol has a fresh entry under its own
    name, [get_batch_stock_details] answers from the cache alone: the
    process state is untouched (no pacing sleep, no stamp in the limiter,
    no fetch) and each symbol gets its cached quote. *)
Theorem batch_all_cached (symbols : list string) (w : world) :
  (forall s, s ∈ symbols ->
     is_Some (cached_fresh (time_time (os (machine w))) (cache w) s)) ->
  exists results,
    get_batch_stock_details symbols w = (w, Ok results) /\
    forall s, s ∈ symbols ->
      results !! s = cached_fresh (time_time (os (machine w))) (cache w) s.
Proof.
  intros Hall. destruct symbols as [|first rest].
  { exists ∅. split; [done|]. intros s Hs. by apply elem_of_nil in Hs. }
  unfold get_batch_stock_details.
  revert Hall. generalize (first :: rest). clear first rest.
  intros symbols Hall.
  set (now := time_time (os (machine w))) in *.
  assert (Hnone :
    List.filter
      (fun s => bool_decide (batch_precheck now (cache w) symbols !! s = None))
      symbols = []).
  { assert (Hgen : forall l : list string,
      (forall s, s ∈ l -> s ∈ symbols) ->
      List.filter
        (fun s => bool_decide
                    (batch_precheck now (cache w) symbols !! s = None)) l
      = []).
    { induction l as [|s l IH]; intros Hsub; [done|]. simpl.
      assert (Hs : s ∈ symbols) by (apply Hsub; apply list_elem_of_here).
      rewrite lookup_batch_precheck, (bool_decide_eq_true_2 _ Hs).
      destruct (Hall s Hs) as [d Hd]. rewrite Hd. simpl.
      apply IH. intros x Hx. apply Hsub. by apply list_elem_of_further. }
    by apply Hgen. }
  rewrite Hnone. simpl.
  exists (batch_precheck now (cache w) symbols). split; [done|].
  intros s Hs. rewrite lookup_batch_precheck.
  by rewrite (bool_decide_eq_true_2 _ Hs).
Qed.

Lemma filter_length (A : Type) (f : A -> bool) (l : list A) :
  length (List.filter f l) <= length l.
Proof.
  induction l as [|x l IH]; [done|]. simpl. destruct (f x); simpl; lia.
Qed.

Lemma py_slice_to_length (A : Type) (l : list A) (limit : Z) :
  length (py_slice_to l limit) <= length l /\
  ((0 <= limit)%Z -> length (py_slice_to l limit) <= Z.to_nat limit).
Proof.
  unfold py_slice_to. destruct (0 <=? limit)%Z eqn:Hpos.
  - rewrite length_take. lia.
  - apply Z.leb_gt in Hpos. rewrite length_take. lia.
Qed.

Lemma search_fetch_data_returns (query : string) (limit : Z) (w : world) :
  exists w' l,
    search_fetch_data query limit w = (w', Ok (VList l)) /\
    length l <= 10 /\
    ((0 <= limit)%Z -> length l <= Z.to_nat limit).
Proof.
  unfold search_fetch_data.
  assert (Hpop : forall l0 : list value,
    length l0 <= 10 ->
    length (py_slice_to l0 limit) <= 10 /\
    ((0 <= limit)%Z -> length (py_slice_to l0 limit) <= Z.to_nat limit)).
  { intros l0 Hl0. destruct (py_slice_to_length value l0 limit). split; [lia|done]. }
  assert (Hfilter :
    length (List.filter (matches (lower query)) popular_stocks) <= 10)
    by apply (filter_length value _ popular_stocks).
  destruct (String.length query <=? 5)%nat.
  - destruct (on_machine (yf_symbol_name query) w) as [w1 [name|]].
    + eexists _, _. split; [reflexivity|]. apply Hpop. simpl. lia.
    + eexists _, _. split; [reflexivity|]. by apply Hpop.
  - eexists _, _. split; [reflexivity|]. by apply Hpop.
Qed.

Lemma cached_or_execute_returns (t : cache_type) (key : string)
    (fetch_func : world -> world * result value) (ttl : option Q)
    (w : world) :
  (exists w1 r, fetch_func w = (w1, Ok r)) ->
  exists w' v, _get_cached_or_execute t key fetch_func ttl w = (w', Ok v).
Proof.
  intros (w1 & r & Hfetch). unfold _get_cached_or_execute. rewrite Hfetch.
  destruct (tier (cache w) t !! key) as [hit|]; [|by eauto].
  destruct (Qltb _ _); by eauto.
Qed.

Lemma search_stocks_returns (query : string) (limit : Z) (w : world) :
  exists w' v, search_stocks query limit w = (w', Ok v).
Proof.
  assert (Hbody : exists w' v,
    (if String.eqb query ""
     then (w, Ok (VList (py_slice_to popular_stocks limit)))
     else _get_cached_or_execute search
            ("search_" +:+ query +:+ "_" +:+ pretty limit)
            (search_fetch_data query limit) None w) = (w', Ok v)).
  { destruct (String.eqb query ""); [by eauto|].
    apply cached_or_execute_returns.
    destruct (search_fetch_data_returns query limit w) as (w1 & l & Hf & _).
    by eauto. }
  destruct Hbody as (w' & v & Hbody). exists w', v.
  unfold search_stocks. by apply on_exception_first_try.
Qed.

(** X13.  [search_stocks] never raises, whatever the query, the limit and
    the state of the upstream source; and what its [fetch_data] computes
    is a list of at most 10 stocks, and of at most [limit] stocks when
    [limit] is not negative. *)
Theorem search_never_raises (query : string) (limit : Z) (w : world) :
  (exists w' v, search_stocks query limit w = (w', Ok v)) /\
  (exists w' l,
     search_fetch_data query limit w = (w', Ok (VList l)) /\
     length l <= 10 /\
     ((0 <= limit)%Z -> length l <= Z.to_nat limit)).
Proof.
  split; [apply search_stocks_returns|apply search_fetch_data_returns].
Qed.



Lemma mock_prices_length (start trend : Q) (returns : list Q) :
  length (foldl (fun prices ret =>
                   prices ++ [(List.last prices 0 * (1 + ret + trend))%Q])
                [start] returns)
  = S (length returns).
Proof.
  assert (Hgen : forall acc : list Q,
    length (foldl (fun prices ret =>
                     prices ++ [(List.last prices 0 * (1 + ret + trend))%Q])
                  acc returns)
    = length acc + length returns).
  { induction returns as [|ret returns IH]; intros acc; simpl; [lia|].
    rewrite IH, length_app. simpl. lia. }
  by rewrite Hgen.
Qed.

(** X15.  On a runtime whose [date_range] and [np.random.normal] return as
    many items as asked for, the mock series of [_get_mock_historical_data]
    has one label, one price and one date per point: the three lists have
    the length that goes with the timeframe. *)
Theorem mock_series_aligned (symbol timeframe : string) (w : world) :
  (forall sigma n e, length (fst (np_random_normal sigma n e)) = n) ->
  (forall days n fmt e, length (date_range_strftime days n fmt e) = n) ->
  exists (d : list (string * value)) (labels data dates : list value),
    snd (_get_mock_historical_data symbol timeframe w) = VDict d /\
    dict_get "labels" d = Some (VList labels) /\
    dict_get "data" d = Some (VList data) /\
    dict_get "timestamps" d = Some (VList dates) /\
    length labels = snd (fst (mock_timeframe_params timeframe)) /\
    length data = snd (fst (mock_timeframe_params timeframe)) /\
    length dates = snd (fst (mock_timeframe_params timeframe)).
Proof.
  intros Hnormal Hrange. unfold _get_mock_historical_data.
  assert (Hpoints : 1 <= snd (fst (mock_timeframe_params timeframe))).
  { unfold mock_timeframe_params.
    repeat (destruct (String.eqb timeframe _); [simpl; lia|]). simpl. lia. }
  destruct (mock_timeframe_params timeframe) as [[days points] date_format].
  simpl in Hpoints.
  pose proof (Hnormal ((2 # 100) + inject_Z (hash symbol mod 10) / 100)%Q
                points (os (machine w))) as Hlen.
  destruct (np_random_normal _ points (os (machine w))) as [returns e1].
  simpl in Hlen.
  eexists _, _, _, _. split; [reflexivity|].
  split; [reflexivity|]. split; [reflexivity|]. split; [reflexivity|].
  simpl. rewrite !length_fmap, !Hrange, mock_prices_length.
  split; [done|]. split; [|done].
  destruct returns as [|ret returns]; simpl in *; lia.
Qed.

End Details.

Import Demo.


Lemma details_served_from_cache_witness :
  get_stock_details "aapl" (with_aapl 10)
    = (after_wait (with_aapl 10), Ok aapl_quote) /\
  cache (after_wait (with_aapl 10)) = cache (with_aapl 10) /\
  exists stamp,
    yahoo (machine (after_wait (with_aapl 10)))
    = RateLimiter.prune 10 60 (yahoo (machine (with_aapl 10))) ++ [stamp].
Proof.
  apply (details_served_from_cache "aapl" (with_aapl 10)
           (mk_entry aapl_quote 0)).
  - reflexivity.
  - reflexivity.
Defined.

Lemma batch_all_cached_witness :
  exists results,
    get_batch_stock_details ["AAPL"] (with_aapl 10)
      = (with_aapl 10, Ok results) /\
    forall s, s ∈ ["AAPL"] ->
      results !! s = cached_fresh 10 (cache (with_aapl 10)) s.
Proof.
  assert (Hall : forall s, s ∈ ["AAPL"] ->
    is_Some (cached_fresh (time_time (os (machine (with_aapl 10))))
                          (cache (with_aapl 10)) s)).
  { intros s Hs. apply list_elem_of_singleton in Hs as ->.
    by exists aapl_quote. }
  exact (batch_all_cached ["AAPL"] (with_aapl 10) Hall).
Defined.

Lemma search_never_raises_witness :
  (exists w' v, search_stocks "apple" 3 (boot 0) = (w', Ok v)) /\
  (exists w' l,
     search_fetch_data "apple" 3 (boot 0) = (w', Ok (VList l)) /\
     length l <= 10 /\
     ((0 <= 3)%Z -> length l <= Z.to_nat 3)).
Proof. exact (search_never_raises "apple" 3 (boot 0)). Defined.


Lemma mock_series_aligned_witness :
  exists (d : list (string * value)) (labels data dates : list value),
    snd (_get_mock_historical_data "X" "1w" (boot 0)) = VDict d /\
    dict_get "labels" d = Some (VList labels) /\
    dict_get "data" d = Some (VList data) /\
    dict_get "timestamps" d = Some (VList dates) /\
    length labels = 7 /\ length data = 7 /\ length dates = 7.
Proof.
  apply (mock_series_aligned "X" "1w" (boot 0)).
  - intros sigma n e. apply length_replicate.
  - intros days n fmt e. apply length_replicate.
Defined.

End ServiceLife.

(* ===================================================================== *)
(** * Market hours and the route layer                                    *)
(* ===================================================================== *)

Module RouteFacts.
Import StockService ServiceFacts.

(** X16.  [_get_market_status] answers ["open"] exactly on Monday to
    Friday when the hour of the local clock is between 13 and 19, that is
    from 9:00 to 15:59 at four hours behind it: the minute plays no part,
    the half hour before 9:30 counts as open. *)
Theorem market_open_hours (weekday hour minute : Z) :
  (0 <= hour < 24)%Z ->
  _get_market_status weekday hour minute = "open" <->
  (weekday < 5 /\ 13 <= hour <= 19)%Z.
Proof.
  intros Hhour. unfold _get_market_status.
  assert (Heast : (13 <= hour <= 19 <-> 9 <= (hour - 4) mod 24 < 16)%Z).
  { destruct (Z_lt_le_dec hour 4) as [Hlt|Hge].
    - replace (hour - 4)%Z with (hour + 20 + (-1) * 24)%Z by lia.
      rewrite Z.mod_add by lia. rewrite Z.mod_small by lia. lia.
    - rewrite Z.mod_small by lia. lia. }
  destruct (weekday <? 5)%Z eqn:Hday.
  - apply Z.ltb_lt in Hday.
    set (eastern_hour := ((hour - 4) mod 24)%Z) in *.
    destruct (((9 <=? eastern_hour)%Z && (eastern_hour <? 16)%Z)
              || ((eastern_hour =? 9)%Z && (30 <=? minute)%Z)) eqn:Hopen.
    + split; [intros _|done]. split; [done|]. apply Heast.
      apply orb_true_iff in Hopen as [Hin|Hhalf].
      * apply andb_true_iff in Hin as [H9 H16].
        apply Z.leb_le in H9. apply Z.ltb_lt in H16. lia.
      * apply andb_true_iff in Hhalf as [H9 _].
        apply Z.eqb_eq in H9. lia.
    + split; [done|]. intros [_ Hin]. apply Heast in Hin.
      apply orb_false_iff in Hopen as [Hout _].
      apply andb_false_iff in Hout as [H9|H16].
      * apply Z.leb_gt in H9. lia.
      * apply Z.ltb_ge in H16. lia.
  - apply Z.ltb_ge in Hday. split; [done|]. lia.
Qed.

Lemma market_open_hours_witness :
  _get_market_status 0 13 15 = "open" <-> (0 < 5 /\ 13 <= 13 <= 19)%Z.
Proof. apply (market_open_hours 0 13 15). lia. Defined.







Section Handlers.
Context {G E : Type} `{Runtime G E} `{Upstream G E}.

Local Abbreviation world := (world G E).

Lemma market_operation_returns (key : string)
    (fetch_func : world -> world * result value) (mock : world -> value)
    (w : world) :
  exists w' v,
    match _get_cached_or_execute market key fetch_func None w with
    | (w1, Ok v) => (w1, Ok v)
    | (w1, Raise e) => (w1, Ok (mock w1))
    end = (w', Ok v).
Proof.
  destruct (_get_cached_or_execute _ _ _ _ _) as [w1 [v|e]]; by eauto.
Qed.

Lemma get_market_summary_returns (w : world) :
  exists w' v, get_market_summary w = (w', Ok v).
Proof.
  unfold get_market_summary. rewrite rate_limit_runs.
  destruct (market_operation_returns "market_summary" market_fetch_data
              _get_mock_market_summary (after_wait w)) as (w' & v & Hbody).
  exists w', v. by apply on_exception_first_try.
Qed.

Lemma get_market_movers_returns (limit : Z) (w : world) :
  exists w' v, get_market_movers limit w = (w', Ok v).
Proof.
  unfold get_market_movers. rewrite rate_limit_runs.
  destruct (market_operation_returns ("movers_" +:+ pretty (Z.min limit 5))
              (movers_fetch_data (Z.min limit 5))
              _get_mock_market_movers (after_wait w)) as (w' & v & Hbody).
  exists w', v. by apply on_exception_first_try.
Qed.

Lemma get_most_watched_returns (limit : Z) (w : world) :
  exists w' v, get_most_watched limit w = (w', Ok v).
Proof.
  unfold get_most_watched. rewrite rate_limit_runs.
  apply market_operation_returns.
Qed.

(** X18.  The handlers of [/stocks], [/stocks/<symbol>],
    [/stocks/<symbol>/historical], [/market/summary], [/market/movers] and
    [/market/most-watched] always answer 200 with [success: True]: the
    branch that answers 500 is never taken, whatever the upstream source
    does. *)
Theorem handlers_always_succeed (symbol timeframe query : string)
    (limit : Z) (w : world) :
  (exists w' v, Routes.get_stocks query limit w
                = (w', (Routes.Success v, 200%Z))) /\
  (exists w' v, Routes.get_stock_details symbol w
                = (w', (Routes.Success v, 200%Z))) /\
  (exists w' v, Routes.get_historical_data symbol timeframe w
                = (w', (Routes.Success v, 200%Z))) /\
  (exists w' v, Routes.get_market_summary w
                = (w', (Routes.Success v, 200%Z))) /\
  (exists w' v, Routes.get_market_movers limit w
                = (w', (Routes.Success v, 200%Z))) /\
  (exists w' v, Routes.get_most_watched limit w
                = (w', (Routes.Success v, 200%Z))).
Proof.
  assert (Hanswer : forall call : world * result value,
    (exists w' v, call = (w', Ok v)) ->
    exists w' v, Routes.answer call = (w', (Routes.Success v, 200%Z))).
  { intros call (w' & v & ->). by exists w', v. }
  repeat split; apply Hanswer.
  - apply ServiceLife.search_stocks_returns.
  - rewrite get_stock_details_unfold. apply details_body_returns.
  - rewrite get_historical_data_unfold. apply historical_body_returns.
  - apply get_market_summary_returns.
  - apply get_market_movers_returns.
  - apply get_most_watched_returns.
Qed.



(** A mock quote is a non-empty dict with a price. *)
Lemma mock_details_has_price (symbol : string) (w : world) :
  (let v := snd (_get_mock_stock_details symbol w) in
   if truthy v && Routes.has_key "price" v then "ok" else "degraded")
  = "ok".
Proof.
  unfold _get_mock_stock_details.
  repeat match goal with
         | |- context [random_uniform ?a ?b ?g] =>
             destruct (random_uniform a b g)
         | |- context [random_randint ?a ?b ?g] =>
             destruct (random_randint a b g)
         end.
  reflexivity.
Qed.

(** X20.  The [api_status] of [GET /health] is never ["error"], and it is
    ["ok"] whenever nothing is cached for AAPL, whether upstream answers
    or not: a mock quote has a price too. *)
Theorem health_check_status (w : world) :
  snd (Routes.health_check w) <> "error" /\
  (realtime_cache (cache w) !! "details_AAPL" = None ->
   snd (Routes.health_check w) = "ok").
Proof.
  unfold Routes.health_check. rewrite get_stock_details_unfold. split.
  - destruct (details_body_returns "AAPL" (after_wait w)) as (w' & v & ->).
    simpl. by destruct (truthy v && Routes.has_key "price" v).
  - intros Hnone.
    assert (Hmiss : tier (cache (after_wait w)) realtime !! "details_AAPL"
                    = None) by (by rewrite after_wait_cache).
    unfold get_stock_details_body, _get_cached_or_execute.
    change ("details_" +:+ upper "AAPL") with "details_AAPL".
    rewrite Hmiss. unfold details_fetch_data, on_machine.
    destruct (yf_quote (upper "AAPL") (machine (after_wait w)))
      as [s' [q|e]]; cbn [cache tier machine fst snd].
    + reflexivity.
    + change (realtime_cache (cache (after_wait w)) !! "details_AAPL")
        with (tier (cache (after_wait w)) realtime !! "details_AAPL").
      rewrite Hmiss.
      pose proof (mock_details_has_price (upper "AAPL")
                    (mk_world (cache (after_wait w)) s')) as Hprice.
      destruct (_get_mock_stock_details _ _) as [w2 v].
      exact Hprice.
Qed.

End Handlers.

Import Demo.


Lemma health_check_status_witness :
  snd (Routes.health_check (boot 0)) <> "error" /\
  snd (Routes.health_check (boot 0)) = "ok".
Proof.
  destruct (health_check_status (boot 0)) as [Hnot Hok].
  split; [exact Hnot|]. apply Hok. reflexivity.
Defined.

End RouteFacts.

(** * The prediction service: what its cache promises *)

Module PredictionFacts.
Import PredictionService.

Lemma dict_get_set (key : string) (v : value) (d : dict) :
  dict_get key (dict_set key v d) = Some v.
Proof.
  induction d as [|[k x] rest IH]; simpl.
  - by rewrite String.eqb_refl.
  - destruct (String.eqb k key) eqn:Hk; simpl; by rewrite Hk.
Qed.

Lemma dict_get_set_ne (key other : string) (v : value) (d : dict) :
  other <> key -> dict_get other (dict_set key v d) = dict_get other d.
Proof.
  intros Hne. induction d as [|[k x] rest IH]; simpl.
  - destruct (String.eqb key other) eqn:Hk; [|done].
    apply String.eqb_eq in Hk. by subst.
  - destruct (String.eqb k key) eqn:Hk; simpl.
    + apply String.eqb_eq in Hk. subst k.
      destruct (String.eqb key other) eqn:Hk'; [|done].
      apply String.eqb_eq in Hk'. by subst.
    + by rewrite IH.
Qed.

Section Service.
Context {E : Type} `{Model E}.

Lemma stamped_set (now : Q) (r : dict) :
  stamped (dict_set "updatedBy" (VStr "lucifer0177continue")
             (dict_set "timestamp" (VStr (strftime now)) r)).
Proof.
  split.
  - apply dict_get_set.
  - exists (strftime now).
    rewrite dict_get_set_ne by done. apply dict_get_set.
Qed.

(** The three ways [predict] ends. *)
Lemma predict_cases (symbol timeframe : string) (self : t E) :
  let key := cache_key symbol timeframe in
  (exists cached expiry,
     prediction_cache self !! key = Some cached /\
     cache_expiry self !! key = Some expiry /\
     Qltb (datetime_now (env self)) expiry = true /\
     predict symbol timeframe self = (self, Ok cached)) \/
  (exists e1 r,
     model_predict symbol timeframe (env self) = (e1, Ok r) /\
     let p := dict_set "updatedBy" (VStr "lucifer0177continue")
                (dict_set "timestamp"
                   (VStr (strftime (datetime_now (env self)))) r) in
     predict symbol timeframe self
     = (mk (<[key := p]> (prediction_cache self))
           (<[key := (datetime_now (env self) + one_hour)%Q]>
              (cache_expiry self)) e1,
        Ok p)) \/
  (exists e1 e,
     model_predict symbol timeframe (env self) = (e1, Raise e) /\
     predict symbol timeframe self
     = (at_env self e1,
        match prediction_cache self !! key with
        | Some old => Ok old
        | None => Raise e
        end)).
Proof.
  intros key. unfold predict. fold key.
  assert (Hcompute :
    (exists e1 r,
       model_predict symbol timeframe (env self) = (e1, Ok r) /\
       (match model_predict symbol timeframe (env self) with
        | (e1, Ok prediction_result) =>
            (mk (<[key := dict_set "updatedBy" (VStr "lucifer0177continue")
                     (dict_set "timestamp"
                        (VStr (strftime (datetime_now (env self))))
                        prediction_result)]> (prediction_cache self))
                (<[key := (datetime_now (env self) + one_hour)%Q]>
                   (cache_expiry self)) e1,
             Ok (dict_set "updatedBy" (VStr "lucifer0177continue")
                   (dict_set "timestamp"
                      (VStr (strftime (datetime_now (env self))))
                      prediction_result)))
        | (e1, Raise e) =>
            match prediction_cache self !! key with
            | Some old =>
                (mk (prediction_cache self) (cache_expiry self) e1, Ok old)
            | None =>
                (mk (prediction_cache self) (cache_expiry self) e1, Raise e)
            end
        end)
       = (mk (<[key := dict_set "updatedBy" (VStr "lucifer0177continue")
                  (dict_set "timestamp"
                     (VStr (strftime (datetime_now (env self)))) r)]>
                (prediction_cache self))
             (<[key := (datetime_now (env self) + one_hour)%Q]>
                (cache_expiry self)) e1,
          Ok (dict_set "updatedBy" (VStr "lucifer0177continue")
                (dict_set "timestamp"
                   (VStr (strftime (datetime_now (env self)))) r)))) \/
    (exists e1 e,
       model_predict symbol timeframe (env self) = (e1, Raise e) /\
       (match model_predict symbol timeframe (env self) with
        | (e1, Ok prediction_result) =>
            (mk (<[key := dict_set "updatedBy" (VStr "lucifer0177continue")
                     (dict_set "timestamp"
                        (VStr (strftime (datetime_now (env self))))
                        prediction_result)]> (prediction_cache self))
                (<[key := (datetime_now (env self) + one_hour)%Q]>
                   (cache_expiry self)) e1,
             Ok (dict_set "updatedBy" (VStr "lucifer0177continue")
                   (dict_set "timestamp"
                      (VStr (strftime (datetime_now (env self))))
                      prediction_result)))
        | (e1, Raise e) =>
            match prediction_cache self !! key with
            | Some old =>
                (mk (prediction_cache self) (cache_expiry self) e1, Ok old)
            | None =>
                (mk (prediction_cache self) (cache_expiry self) e1, Raise e)
            end
        end)
       = (at_env self e1,
          match prediction_cache self !! key with
          | Some old => Ok old
          | None => Raise e
          end))).
  { destruct (model_predict symbol timeframe (env self)) as [e1 [r|e]].
    - left. by exists e1, r.
    - right. exists e1, e. split; [done|]. unfold at_env.
      by destruct (prediction_cache self !! key). }
  destruct (prediction_cache self !! key) as [cached|] eqn:Hc;
    [destruct (cache_expiry self !! key) as [expiry|] eqn:Hx;
     [destruct (Qltb (datetime_now (env self)) expiry) eqn:Hlt|]|].
  - left. by exists cached, expiry.
  - right. destruct Hcompute as [(e1 & r & Hm & Hrun)|(e1 & e & Hm & Hrun)].
    + left. exists e1, r. by split.
    + right. exists e1, e. by split.
  - right. destruct Hcompute as [(e1 & r & Hm & Hrun)|(e1 & e & Hm & Hrun)].
    + left. exists e1, r. by split.
    + right. exists e1, e. by split.
  - right. destruct Hcompute as [(e1 & r & Hm & Hrun)|(e1 & e & Hm & Hrun)].
    + left. exists e1, r. by split.
    + right. exists e1, e. by split.
Qed.

(** X21.  A prediction the model has just produced is kept for an hour:
    [predict] returns it with the two metadata fields written, and every
    call for the same symbol and timeframe made less than 3600 seconds
    later returns the same prediction without calling the model or
    changing the service. *)
Theorem prediction_kept_for_an_hour (symbol timeframe : string)
    (self : t E) (e1 : E) (r : dict) :
  model_predict symbol timeframe (env self) = (e1, Ok r) ->
  (forall expiry,
     cache_expiry self !! cache_key symbol timeframe = Some expiry ->
     (expiry <= datetime_now (env self))%Q) ->
  exists self1 p,
    predict symbol timeframe self = (self1, Ok p) /\
    env self1 = e1 /\
    stamped p /\
    (forall other, other <> "timestamp" -> other <> "updatedBy" ->
       dict_get other p = dict_get other r) /\
    forall e2,
      (datetime_now e2 < datetime_now (env self) + 3600)%Q ->
      predict symbol timeframe (at_env self1 e2)
      = (at_env self1 e2, Ok p).
Proof.
  intros Hmodel Hexpired.
  destruct (predict_cases symbol timeframe self)
    as [(cached & expiry & _ & Hx & Hlt & _)
       |[(e1' & r' & Hm & Hrun)|(e1' & e & Hm & _)]].
  - apply Hexpired in Hx. apply Qltb_true in Hlt. lra.
  - rewrite Hmodel in Hm. injection Hm as <- <-.
    eexists _, _. split; [exact Hrun|]. split; [done|].
    split; [apply stamped_set|]. split.
    + intros other Hts Hby. by rewrite !dict_get_set_ne.
    + intros e2 Hsoon. unfold predict, at_env. cbn [prediction_cache
        cache_expiry env]. rewrite !lookup_insert_eq.
      replace (Qltb (datetime_now e2)
                 (datetime_now (env self) + one_hour)) with true; [done|].
      symmetry. apply Qltb_true. unfold one_hour. lra.
  - rewrite Hmodel in Hm. discriminate.
Qed.

(** X22.  In every state the service reaches, the two dicts have the same
    keys, each cached prediction carries the metadata that [predict]
    writes, and each key is the one [predict] builds for some symbol and
    timeframe. *)
Theorem prediction_cache_invariant (self : t E) :
  reachable self ->
  dom (prediction_cache self) = dom (cache_expiry self) /\
  forall key p,
    prediction_cache self !! key = Some p ->
    stamped p /\
    exists symbol timeframe, key = cache_key symbol timeframe.
Proof.
  induction 1 as [e|self e _ IH|self symbol timeframe _ [IHdom IHp]].
  - unfold init. cbn [prediction_cache cache_expiry].
    split; [by rewrite !dom_empty_L|]. intros key p Hp.
    by apply lookup_empty_Some in Hp.
  - exact IH.
  - destruct (predict_cases symbol timeframe self)
      as [(cached & expiry & _ & _ & _ & ->)
         |[(e1 & r & _ & ->)|(e1 & e & _ & ->)]]; cbn [fst].
    + by split.
    + cbn [prediction_cache cache_expiry]. split.
      * by rewrite !dom_insert_L, IHdom.
      * intros key p Hp.
        destruct (decide (key = cache_key symbol timeframe)) as [->|Hne].
        -- rewrite lookup_insert_eq in Hp. injection Hp as <-.
           split; [apply stamped_set|]. by exists symbol, timeframe.
        -- rewrite lookup_insert_ne in Hp by done. by apply IHp.
    + by split.
Qed.

(** X23.  [predict] raises only what the model raised, and only when
    nothing at all is cached for the symbol and timeframe; the two dicts
    are then left as they were. *)
Theorem predict_raises_only_uncached (symbol timeframe : string)
    (self self' : t E) (e : exn) :
  predict symbol timeframe self = (self', Raise e) ->
  prediction_cache self !! cache_key symbol timeframe = None /\
  model_predict symbol timeframe (env self) = (env self', Raise e) /\
  prediction_cache self' = prediction_cache self /\
  cache_expiry self' = cache_expiry self.
Proof.
  intros Hrun.
  destruct (predict_cases symbol timeframe self)
    as [(cached & expiry & _ & _ & _ & Heq)
       |[(e1 & r & _ & Heq)|(e1 & e0 & Hm & Heq)]];
    rewrite Heq in Hrun; try discriminate.
  destruct (prediction_cache self !! cache_key symbol timeframe)
    as [old|]; [discriminate|].
  injection Hrun as <- <-. by repeat split.
Qed.

(** X24.  What [predict] returns is what the service holds for that symbol
    and timeframe afterwards, and no call ever takes a key out of the
    prediction cache: once a prediction was made, later calls for it
    cannot raise. *)
Theorem predict_returns_what_it_holds (symbol timeframe : string)
    (self : t E) :
  let self' := fst (predict symbol timeframe self) in
  dom (prediction_cache self) ⊆ dom (prediction_cache self') /\
  (forall p,
     snd (predict symbol timeframe self) = Ok p ->
     prediction_cache self' !! cache_key symbol timeframe = Some p) /\
  (forall old,
     prediction_cache self !! cache_key symbol timeframe = Some old ->
     exists p, snd (predict symbol timeframe self) = Ok p).
Proof.
  destruct (predict_cases symbol timeframe self)
    as [(cached & expiry & Hc & _ & _ & Heq)
       |[(e1 & r & _ & Heq)|(e1 & e & _ & Heq)]];
    rewrite Heq; cbn [fst snd prediction_cache at_env].
  - split; [done|]. split.
    + by intros p [= <-].
    + intros old _. by exists cached.
  - split; [|split].
    + rewrite dom_insert_L. apply union_subseteq_r.
    + intros p [= <-]. by rewrite lookup_insert_eq.
    + intros old _. by eexists.
  - split; [done|]. split.
    + destruct (prediction_cache self !! cache_key symbol timeframe)
        as [old|]; [by intros p [= <-]|discriminate].
    + intros old ->. by exists old.
Qed.

End Service.

Import PredictionService.Demo.

Lemma prediction_kept_for_an_hour_witness :
  exists self1 p,
    predict "AAPL" "3m" (init 100%Q) = (self1, Ok p) /\
    stamped p /\
    predict "AAPL" "3m" (at_env self1 3699%Q)
    = (at_env self1 3699%Q, Ok p).
Proof.
  destruct (prediction_kept_for_an_hour "AAPL" "3m" (init 100%Q)
              100%Q
              [("symbol", VStr "AAPL"); ("timeframe", VStr "3m")])
    as (self1 & p & Hrun & _ & Hstamp & _ & Hlater).
  - reflexivity.
  - intros expiry Hx. unfold init in Hx. cbn [cache_expiry] in Hx.
    by apply lookup_empty_Some in Hx.
  - exists self1, p. split; [exact Hrun|]. split; [exact Hstamp|].
    apply Hlater. simpl. lra.
Defined.

Lemma prediction_cache_invariant_witness :
  let self := fst (predict "AAPL" "3m" (init 100%Q)) in
  dom (prediction_cache self) = dom (cache_expiry self) /\
  forall key p,
    prediction_cache self !! key = Some p ->
    stamped p /\
    exists symbol timeframe, key = cache_key symbol timeframe.
Proof.
  exact (prediction_cache_invariant _
           (reach_predict _ "AAPL" "3m" (reach_init 100%Q))).
Defined.

Lemma predict_raises_only_uncached_witness :
  prediction_cache (init 100%Q) !! cache_key "BAD" "3m" = None /\
  model_predict "BAD" "3m" 100%Q
  = (100%Q, Raise (ValueError "no data")).
Proof.
  assert (Hrun : predict "BAD" "3m" (init 100%Q)
                 = (init 100%Q, Raise (ValueError "no data"))).
  { unfold predict, init. cbn [prediction_cache cache_expiry env].
    by rewrite lookup_empty. }
  destruct (predict_raises_only_uncached "BAD" "3m" (init 100%Q)
              (init 100%Q) (ValueError "no data") Hrun)
    as (Hnone & Hmodel & _).
  split; [exact Hnone|exact Hmodel].
Defined.

End PredictionFacts.
